(** * Verification model of the Daikin One Home Assistant integration

    Shallow embedding of [custom_components/daikinone]:
    - [Py]: the Python values the integration handles (JSON payloads),
      exceptions, and the small state/error monad used for async code;
    - [Transport]: [DaikinOne.login], [DaikinOne.__refresh_token] and
      [DaikinOne.__req] (daikinone.py) against an HTTP backend;
    - [Decode]: [Temperature] (utils.py), [__map_thermostat],
      [__map_equipment] and the pydantic validation of their fields;
    - [Store]: the thermostat cache, [__refresh_thermostats],
      [get_thermostat] and [get_thermostats] with explicit object identity;
    - [Climate]: the thermostat climate entity (climate.py): polling,
      optimistic updates and the set-temperature service. *)

From Stdlib Require Import ZArith QArith Lqa String Ascii List Bool.
From stdpp Require Import base gmap strings list.

Set Warnings "-register-all".


Module Py.

(** Values produced by the JSON decoder and handled as [Any]. Python
    floats are represented by their exact rational value; JSON objects
    are association lists with unique keys (the decoder's dict). *)
Inductive pyval :=
| PNone
| PBool (b : bool)
| PInt (z : Z)
| PFloat (q : Q)
| PStr (s : string)
| PList (l : list pyval)
| PDict (kv : list (string * pyval)).

(** Fields of a [DaikinServiceException]: its status and the parts its
    message is formatted from. *)
Record ServiceErr := {
  se_method : string;
  se_url : string;
  se_body : option pyval;
  se_status : Z;
  se_text : string
}.

Inductive Exn :=
| ServiceError (e : ServiceErr)
| KeyError (k : string)
| TypeError
| AttributeError
| ValueError (msg : string)
| ValidationError
| OverflowError.

Inductive result (A : Type) :=
| Ok (a : A)
| Err (e : Exn).
Arguments Ok {A} a.
Arguments Err {A} e.

(** [d[k]] *)
Definition getitem (v : pyval) (k : string) : result pyval :=
  match v with
  | PDict kv =>
      match find (fun p => String.eqb (fst p) k) kv with
      | Some (_, x) => Ok x
      | None => Err (KeyError k)
      end
  | _ => Err TypeError
  end.

(** Python truthiness. *)
Definition truthy (v : pyval) : bool :=
  match v with
  | PNone => false
  | PBool b => b
  | PInt z => negb (Z.eqb z 0)
  | PFloat q => negb (Qeq_bool q 0)
  | PStr s => negb (String.eqb s "")
  | PList l => negb (Nat.eqb (length l) 0)
  | PDict kv => negb (Nat.eqb (length kv) 0)
  end.

(** [x is None] *)
Definition is_none (v : pyval) : bool :=
  match v with PNone => true | _ => false end.

(** A state and error monad over a state [S]; [await] points of the
    async source are plain sequencing. *)
Definition M (S A : Type) := S -> result A * S.

Definition mret {S A} (a : A) : M S A := fun s => (Ok a, s).
Definition mraise {S A} (e : Exn) : M S A := fun s => (Err e, s).
Definition mbind {S A B} (m : M S A) (k : A -> M S B) : M S B :=
  fun s => match m s with
           | (Ok a, s') => k a s'
           | (Err e, s') => (Err e, s')
           end.
Definition mget {S} : M S S := fun s => (Ok s, s).
Definition mput {S} (s : S) : M S unit := fun _ => (Ok tt, s).
Definition mmodify {S} (f : S -> S) : M S unit := fun s => (Ok tt, f s).
Definition mlift {S A} (r : result A) : M S A := fun s => (r, s).

End Py.

Import Py.

Declare Scope eff_scope.
Notation "'let!' x ':=' c 'in' k" := (mbind c (fun x => k))
  (at level 200, x name, c at level 100, k at level 200) : eff_scope.
Open Scope eff_scope.

Module Transport.

Record AuthState := {
  authenticated : bool;
  refresh_token : pyval;
  access_token : pyval
}.

(** The HTTP calls the client issues: the login and token refresh posts,
    and the API requests of [__req] (sent with [session.request]). *)
Inductive HttpCall :=
| CallLogin (email password : string)
| CallRefreshToken (email : string) (refresh : pyval)
| CallRequest (method url : string) (body : option pyval) (bearer : pyval).

Record Response := {
  status : Z;
  text : string;
  json : pyval
}.

(** Client state: the credentials, the auth state and the calls sent so
    far (most recent first). The backend answers every call; its answer may
    depend on the calls it received before (the remote state). *)
Record TState := {
  creds_email : string;
  creds_password : string;
  auth : AuthState;
  sent : list HttpCall
}.

Section Client.
Variable backend : list HttpCall -> HttpCall -> Response.

Definition T := M TState.

Definition send (c : HttpCall) : T Response :=
  fun s => (Ok (backend (sent s) c),
            {| creds_email := creds_email s; creds_password := creds_password s;
               auth := auth s; sent := c :: sent s |}).

Definition set_auth (a : AuthState) : T unit :=
  mmodify (fun s => {| creds_email := creds_email s; creds_password := creds_password s;
                       auth := a; sent := sent s |}).

(** [DaikinOne.login] *)
Definition login : T bool :=
  let! s := mget in
  let! response := send (CallLogin (creds_email s) (creds_password s)) in
  if negb (Z.eqb (status response) 200) then mret false
  else
    let! refresh := mlift (getitem (json response) "refreshToken") in
    let! access := mlift (getitem (json response) "accessToken") in
    if is_none refresh then mret false
    else if is_none access then mret false
    else let! _ := set_auth {| authenticated := true; refresh_token := refresh;
                     access_token := access |} in
    mret true.

(** [DaikinOne.__refresh_token] *)
Definition refresh_access_token : T bool :=
  let! s0 := mget in
  let! _ := (if authenticated (auth s0) then mret false else login) in
  let! s := mget in
  let! response := send (CallRefreshToken (creds_email s) (refresh_token (auth s))) in
  let a := auth s in
  if negb (Z.eqb (status response) 200) then
    let! _ := set_auth {| authenticated := false; refresh_token := refresh_token a;
                access_token := access_token a |} in
    mret false
  else
    let! access := mlift (getitem (json response) "accessToken") in
    if is_none access then
      let! _ := set_auth {| authenticated := false; refresh_token := refresh_token a;
                  access_token := access_token a |} in
    mret false
    else
      let! _ := set_auth {| authenticated := true; refresh_token := refresh_token a;
                  access_token := access |} in
    mret true.

(** One pass of [DaikinOne.__req] with the given [retry] flag; [again] is
    the recursive call the source makes on a 401, which is
    [__req(url, method, body, retry=False)]. *)
Definition req_attempt (url method : string) (body : option pyval) (retry : bool)
    (again : T pyval) : T pyval :=
  let! s0 := mget in
  let! _ := (if authenticated (auth s0) then mret false else login) in
  let! s := mget in
  let! response := send (CallRequest method url body (access_token (auth s))) in
  if Z.eqb (status response) 200 then mret (json response)
  else if Z.eqb (status response) 401 && retry then
    let! _ := refresh_access_token in
    again
  else
    mraise (ServiceError {| se_method := method; se_url := url; se_body := body;
                            se_status := status response; se_text := text response |}).

(** [DaikinOne.__req]: the recursive call is made with [retry=False], so its
    own continuation is never reached. *)
Definition req (url method : string) (body : option pyval) (retry : bool) : T pyval :=
  req_attempt url method body retry
    (req_attempt url method body false (mraise (ValueError "unreachable"))).

End Client.

Definition is_request (c : HttpCall) : bool :=
  match c with CallRequest _ _ _ _ => true | _ => false end.

(** Number of API requests ([session.request]) in a call log. *)
Definition requests_sent (l : list HttpCall) : nat := length (List.filter is_request l).

(** [m] adds calls to the log, at most [n] of them API requests. *)
Definition sends_at_most {A} (n : nat) (m : T A) : Prop :=
  forall s r s', m s = (r, s') -> exists l, sent s' = l ++ sent s /\ requests_sent l <= n.

(** A backend that answers every call with HTTP 401 and the given body. *)
Definition always_401 (body_text : string) : list HttpCall -> HttpCall -> Response :=
  fun _ _ => {| status := 401; text := body_text; json := PNone |}.

End Transport.

Module Decode.
Local Open Scope Z_scope.

Definition rbind {A B} (r : result A) (k : A -> result B) : result B :=
  match r with Ok a => k a | Err e => Err e end.
Notation "'let?' x ':=' r 'in' k" := (rbind r (fun x => k))
  (at level 200, x name, r at level 100, k at level 200).

(** ** Python operations on payload values *)

Definition Qlt_bool (a b : Q) : bool := negb (Qle_bool b a).

(** The numeric value of a [bool], [int] or [float]. *)
Definition as_num (v : pyval) : option Q :=
  match v with
  | PBool b => Some (if b then 1%Q else 0%Q)
  | PInt z => Some (inject_Z z)
  | PFloat q => Some q
  | _ => None
  end.

(** [v / n] (true division, always a float). *)
Definition truediv (v : pyval) (n : Z) : result pyval :=
  match as_num v with
  | Some q => Ok (PFloat (q / inject_Z n))
  | None => Err TypeError
  end.

(** [v * n]: numbers multiply, strings and lists repeat. *)
Definition mul (v : pyval) (n : nat) : result pyval :=
  match v with
  | PBool b => Ok (PInt (if b then Z.of_nat n else 0))
  | PInt z => Ok (PInt (z * Z.of_nat n))
  | PFloat q => Ok (PFloat (q * inject_Z (Z.of_nat n)))
  | PStr s => Ok (PStr (String.concat "" (repeat s n)))
  | PList l => Ok (PList (List.concat (repeat l n)))
  | _ => Err TypeError
  end.

(** [v < n]; comparing a non-number with an int raises. *)
Definition lt (v : pyval) (n : Z) : result bool :=
  match as_num v with
  | Some q => Ok (Qlt_bool q (inject_Z n))
  | None => Err TypeError
  end.

(** [v != n]; a non-number is never equal to an int. *)
Definition ne (v : pyval) (n : Z) : bool :=
  match as_num v with
  | Some q => negb (Qeq_bool q (inject_Z n))
  | None => true
  end.

(** Round half to even of an exact rational to an integer. *)
Definition round_half_even (r : Q) : Z :=
  let fl := Z.div (Qnum r) (Zpos (Qden r)) in
  let frac := (r - inject_Z fl)%Q in
  if Qlt_bool frac (1 # 2) then fl
  else if Qlt_bool (1 # 2) frac then fl + 1
  else if Z.even fl then fl else fl + 1.

(** [round(q, 1)] on the exact value of a float. *)
Definition round1 (q : Q) : Q :=
  Qred (inject_Z (round_half_even (q * 10)) / 10).

(** [round(v, 1)]: an int (or bool) is returned unchanged. *)
Definition py_round1 (v : pyval) : result pyval :=
  match v with
  | PBool b => Ok (PInt (if b then 1 else 0))
  | PInt z => Ok (PInt z)
  | PFloat q => Ok (PFloat (round1 q))
  | _ => Err TypeError
  end.

(** [str.isspace] on one character (code points below 256). *)
Definition is_space (c : ascii) : bool :=
  let n := nat_of_ascii c in
  (((9 <=? n) && (n <=? 13)) || ((28 <=? n) && (n <=? 32)) || (n =? 133) || (n =? 160))%nat.

Fixpoint lstrip (s : string) : string :=
  match s with
  | EmptyString => EmptyString
  | String c r => if is_space c then lstrip r else s
  end.

Definition rstrip (s : string) : string :=
  string_of_list_ascii (rev (list_ascii_of_string (lstrip (string_of_list_ascii
    (rev (list_ascii_of_string s)))))).

(** [str.strip()] *)
Definition strip (s : string) : string := rstrip (lstrip s).

Definition ascii_upper (c : ascii) : ascii :=
  let n := nat_of_ascii c in
  if ((97 <=? n) && (n <=? 122))%nat then ascii_of_nat (n - 32)%nat else c.
Definition ascii_lower (c : ascii) : ascii :=
  let n := nat_of_ascii c in
  if ((65 <=? n) && (n <=? 90))%nat then ascii_of_nat (n + 32)%nat else c.

(** [str.capitalize()] (ASCII case mapping). *)
Definition capitalize (s : string) : string :=
  match s with
  | EmptyString => EmptyString
  | String c r => String (ascii_upper c) (string_of_list_ascii (map ascii_lower (list_ascii_of_string r)))
  end.

(** [d[k].strip()]: a non-string has no [strip] attribute. *)
Definition get_strip (d : pyval) (k : string) : result string :=
  let? v := getitem d k in
  match v with PStr s => Ok (strip s) | _ => Err AttributeError end.

(** ** Pydantic field validation (lax mode) *)

Definition digit_val (c : ascii) : option Z :=
  let n := nat_of_ascii c in
  if ((48 <=? n) && (n <=? 57))%nat then Some (Z.of_nat (n - 48)) else None.

Fixpoint parse_digits (l : list ascii) (acc : Z) : option Z :=
  match l with
  | [] => Some acc
  | c :: r => match digit_val c with
              | Some d => parse_digits r (acc * 10 + d)
              | None => None
              end
  end.

(** Decimal integer strings, optionally signed, surrounded by whitespace. *)
Definition parse_int (s : string) : option Z :=
  match list_ascii_of_string (strip s) with
  | [] => None
  | "-"%char :: (_ :: _) as r => option_map Z.opp (parse_digits r 0)
  | "+"%char :: (_ :: _) as r => parse_digits r 0
  | l => parse_digits l 0
  end.

(** Digits after the first decimal point. *)
Fixpoint digits_after_point (l : list ascii) : nat :=
  match l with
  | [] => 0%nat
  | c :: r => if Ascii.eqb c "."%char then length r else digits_after_point r
  end.

(** Decimal strings [ddd] or [ddd.ddd], optionally signed. *)
Definition parse_float (s : string) : option Q :=
  let l := list_ascii_of_string (strip s) in
  let '(sign, body) := match l with
                       | "-"%char :: r => ((-1)%Z, r)
                       | "+"%char :: r => (1%Z, r)
                       | _ => (1%Z, l)
                       end in
  let digits := List.filter (fun c => negb (Ascii.eqb c "."%char)) body in
  let points := length (List.filter (fun c => Ascii.eqb c "."%char) body) in
  if Nat.eqb (length digits) 0 || Nat.ltb 1 points then None
  else option_map (fun z => Qmake (sign * z) (Pos.of_nat (10 ^ digits_after_point body)%nat))
                  (parse_digits digits 0).

(** [int] field *)
Definition pyd_int (v : pyval) : result Z :=
  match v with
  | PBool b => Ok (if b then 1 else 0)
  | PInt z => Ok z
  | PFloat q => let q' := Qred q in
                if Pos.eqb (Qden q') 1 then Ok (Qnum q') else Err ValidationError
  | PStr s => match parse_int s with Some z => Ok z | None => Err ValidationError end
  | _ => Err ValidationError
  end.

(** [int | None] field *)
Definition pyd_opt_int (v : pyval) : result (option Z) :=
  match v with
  | PNone => Ok None
  | _ => let? z := pyd_int v in Ok (Some z)
  end.

(** [float] field *)
Definition pyd_float (v : pyval) : result Q :=
  match v with
  | PStr s => match parse_float s with Some q => Ok q | None => Err ValidationError end
  | _ => match as_num v with Some q => Ok q | None => Err ValidationError end
  end.

(** [bool] field *)
Definition pyd_bool (v : pyval) : result bool :=
  match v with
  | PBool b => Ok b
  | PInt 0 => Ok false
  | PInt 1 => Ok true
  | PFloat q => if Qeq_bool q 0 then Ok false else if Qeq_bool q 1 then Ok true
                else Err ValidationError
  | PStr s =>
      let t := string_of_list_ascii (map ascii_lower (list_ascii_of_string s)) in
      if existsb (String.eqb t) ["0"; "off"; "f"; "false"; "n"; "no"] then Ok false
      else if existsb (String.eqb t) ["1"; "on"; "t"; "true"; "y"; "yes"] then Ok true
      else Err ValidationError
  | _ => Err ValidationError
  end.

(** [str] field *)
Definition pyd_str (v : pyval) : result string :=
  match v with PStr s => Ok s | _ => Err ValidationError end.

(** ** [Temperature] (utils.py) *)

(** A temperature holds its Celsius value [_temp_c], rounded to one
    decimal on construction. *)
Record Temperature := { temp_c : Q }.

(** [Temperature._init] *)
Definition temp_init (c : Q) : Temperature := {| temp_c := round1 c |}.

(** [Temperature.from_celsius] ([round] raises on a non-number). *)
Definition from_celsius (v : pyval) : result Temperature :=
  match as_num v with
  | Some q => Ok (temp_init q)
  | None => Err TypeError
  end.

(** [Temperature.from_fahrenheit] *)
Definition from_fahrenheit (v : pyval) : result Temperature :=
  match as_num v with
  | Some f => Ok (temp_init ((f - 32) * 5 / 9))
  | None => Err TypeError
  end.

(** [Temperature.celsius] *)
Definition celsius (t : Temperature) : Q := round1 (temp_c t).

(** [Temperature.__eq__] between two temperatures. *)
Definition temp_eqb (t1 t2 : Temperature) : bool := Qeq_bool (temp_c t1) (temp_c t2).

(** ** Enums (lookup by value: numerically equal values select a member) *)

Definition num_is (v : pyval) (n : Z) : bool :=
  match as_num v with Some q => Qeq_bool q (inject_Z n) | None => false end.

Module Capability.
Inductive t := HEAT | COOL | EMERGENCY_HEAT.
(** [set(DaikinThermostatCapability)], in declaration order. *)
Definition all : list t := [HEAT; COOL; EMERGENCY_HEAT].
Definition eqb (a b : t) : bool :=
  match a, b with
  | HEAT, HEAT | COOL, COOL | EMERGENCY_HEAT, EMERGENCY_HEAT => true
  | _, _ => false
  end.
End Capability.

Module ThermostatMode.
Inductive t := OFF | HEAT | COOL | AUTO | AUX_HEAT.
Definition of_value (v : pyval) : result t :=
  if num_is v 0 then Ok OFF else if num_is v 1 then Ok HEAT
  else if num_is v 2 then Ok COOL else if num_is v 3 then Ok AUTO
  else if num_is v 4 then Ok AUX_HEAT else Err (ValueError "DaikinThermostatMode").
Definition eqb (a b : t) : bool :=
  match a, b with
  | OFF, OFF | HEAT, HEAT | COOL, COOL | AUTO, AUTO | AUX_HEAT, AUX_HEAT => true
  | _, _ => false
  end.
End ThermostatMode.

Module ThermostatStatus.
Inductive t := COOLING | DRYING | HEATING | CIRCULATING_AIR | IDLE.
Definition of_value (v : pyval) : result t :=
  if num_is v 1 then Ok COOLING else if num_is v 2 then Ok DRYING
  else if num_is v 3 then Ok HEATING else if num_is v 4 then Ok CIRCULATING_AIR
  else if num_is v 5 then Ok IDLE else Err (ValueError "DaikinThermostatStatus").
End ThermostatStatus.

(** [DaikinOutdoorUnitReversingValveStatus] and [DaikinOutdoorUnitHeaterStatus]
    share their members and values. *)
Module OnOffStatus.
Inductive t := OFF | ON | UNKNOWN.
Definition of_value (v : pyval) : result t :=
  if num_is v 0 then Ok OFF else if num_is v 1 then Ok ON
  else if num_is v 255 then Ok UNKNOWN else Err (ValueError "status").
End OnOffStatus.

(** ** Decoded devices *)

Record DaikinIndoorUnit := {
  iu_id : string; iu_name : string; iu_model : string; iu_firmware_version : string;
  iu_thermostat_id : string; iu_serial : string;
  iu_mode : string;
  iu_current_airflow : Z;
  iu_fan_demand_requested_percent : Z;
  iu_fan_demand_current_percent : Z;
  iu_heat_demand_requested_percent : Z;
  iu_heat_demand_current_percent : Z;
  iu_cool_demand_requested_percent : option Z;
  iu_cool_demand_current_percent : option Z;
  iu_humidification_demand_requested_percent : Z;
  iu_dehumidification_demand_requested_percent : option Z;
  iu_power_usage : Q
}.

Record DaikinOutdoorUnit := {
  ou_id : string; ou_name : string; ou_model : string; ou_firmware_version : string;
  ou_thermostat_id : string; ou_serial : string;
  ou_inverter_software_version : option string;
  ou_total_runtime_hours : Q;
  ou_mode : string;
  ou_compressor_speed_target : Z;
  ou_compressor_speed_current : Z;
  ou_outdoor_fan_target_rpm : Z;
  ou_outdoor_fan_rpm : Z;
  ou_suction_pressure_psi : Z;
  ou_eev_opening_percent : Z;
  ou_reversing_valve : OnOffStatus.t;
  ou_heat_demand_percent : Z;
  ou_cool_demand_percent : Z;
  ou_fan_demand_percent : Z;
  ou_fan_demand_airflow : Z;
  ou_dehumidify_demand_percent : Z;
  ou_air_temperature : Temperature;
  ou_coil_temperature : Temperature;
  ou_discharge_temperature : Temperature;
  ou_liquid_temperature : Temperature;
  ou_defrost_sensor_temperature : Temperature;
  ou_inverter_fin_temperature : Temperature;
  ou_power_usage : Q;
  ou_compressor_amps : Q;
  ou_inverter_amps : Q;
  ou_fan_motor_amps : Q;
  ou_crank_case_heater : OnOffStatus.t;
  ou_drain_pan_heater : OnOffStatus.t;
  ou_preheat_heater : OnOffStatus.t
}.

Record DaikinEEVCoil := {
  ec_id : string; ec_name : string; ec_model : string; ec_firmware_version : string;
  ec_thermostat_id : string; ec_serial : string;
  ec_indoor_superheat_temperature : Temperature;
  ec_liquid_temperature : Temperature;
  ec_suction_temperature : Temperature;
  ec_pressure_psi : Z
}.

Inductive DaikinEquipment :=
| IndoorUnit (u : DaikinIndoorUnit)
| OutdoorUnit (u : DaikinOutdoorUnit)
| EEVCoil (u : DaikinEEVCoil).

(** A Python dict in insertion order; keys are unique. *)
Definition dict (V : Type) := list (string * V).

(** [d[k] = v]: replaces the value of an existing key in place, else appends. *)
Fixpoint dict_set {V} (k : string) (v : V) (d : dict V) : dict V :=
  match d with
  | [] => [(k, v)]
  | (k', v') :: r => if String.eqb k k' then (k, v) :: r else (k', v') :: dict_set k v r
  end.

Record DaikinThermostat := {
  th_id : string; th_name : string; th_model : string; th_firmware_version : string;
  th_location_id : string;
  th_online : bool;
  th_capabilities : list Capability.t;
  th_mode : ThermostatMode.t;
  th_status : ThermostatStatus.t;
  th_schedule_enabled : bool;
  th_indoor_temperature : Temperature;
  th_indoor_humidity : Z;
  th_set_point_heat : Temperature;
  th_set_point_heat_min : Temperature;
  th_set_point_heat_max : Temperature;
  th_set_point_cool : Temperature;
  th_set_point_cool_min : Temperature;
  th_set_point_cool_max : Temperature;
  th_equipment : dict DaikinEquipment
}.

(** [DaikinDeviceDataResponse] *)
Record DeviceDataResponse := {
  dd_id : string; dd_locationId : string; dd_name : string; dd_model : string;
  dd_firmware : string; dd_online : bool;
  dd_data : pyval
}.

(** ** [DaikinOne.__map_equipment] *)

Definition get_div (d : pyval) (k : string) (n : Z) : result pyval :=
  let? v := getitem d k in truediv v n.

(** [round(d[k] / 2, 1)] *)
Definition get_half_round (d : pyval) (k : string) : result pyval :=
  let? v := get_div d k 2 in py_round1 v.

Definition get_mul (d : pyval) (k : string) (n : nat) : result pyval :=
  let? v := getitem d k in mul v n.

(** [timedelta(hours=v)], kept as its number of hours; [timedelta] raises
    beyond 999999999 days. *)
Definition timedelta_hours (v : pyval) : result Q :=
  match as_num v with
  | Some h =>
      let days := Z.div (Qnum h) (Zpos (Qden h) * 24) in
      if (-999999999 <=? days) && (days <=? 999999999) then Ok h else Err OverflowError
  | None => Err TypeError
  end.

(** [f"{model}-{serial}"] *)
Definition synthetic_id (model serial : string) : string :=
  String.append model (String.append "-" serial).

(** The air handler branch: [Some (eid, unit)] when [ctAHUnitType < 255].
    The arguments are evaluated first, then the pydantic dataclass
    validates them. *)
Definition map_air_handler (p : DeviceDataResponse) : result (option (string * DaikinEquipment)) :=
  let d := dd_data p in
  let? ty := getitem d "ctAHUnitType" in
  let? present := lt ty 255 in
  if negb present then Ok None else
  let? model := get_strip d "ctAHModelNoCharacter1_15" in
  let? serial := get_strip d "ctAHSerialNoCharacter1_15" in
  let eid := synthetic_id model serial in
  let? fw := get_strip d "ctAHControlSoftwareVersion" in
  let? mode := get_strip d "ctAHMode" in
  let? airflow := getitem d "ctAHCurrentIndoorAirflow" in
  let? fan_req := get_div d "ctAHFanRequestedDemand" 2 in
  let? fan_cur := get_div d "ctAHFanCurrentDemandStatus" 2 in
  let? heat_req := get_div d "ctAHHeatRequestedDemand" 2 in
  let? heat_cur := get_div d "ctAHHeatCurrentDemandStatus" 2 in
  let? hum_req := get_div d "ctAHHumidificationRequestedDemand" 2 in
  let? power := get_div d "ctIndoorPower" 10 in
  let? airflow' := pyd_int airflow in
  let? fan_req' := pyd_int fan_req in
  let? fan_cur' := pyd_int fan_cur in
  let? heat_req' := pyd_int heat_req in
  let? heat_cur' := pyd_int heat_cur in
  let? hum_req' := pyd_int hum_req in
  let? power' := pyd_float power in
  Ok (Some (eid, IndoorUnit {|
    iu_id := eid; iu_thermostat_id := dd_id p; iu_name := "Air Handler"; iu_model := model;
    iu_firmware_version := fw; iu_serial := serial; iu_mode := capitalize mode;
    iu_current_airflow := airflow';
    iu_fan_demand_requested_percent := fan_req';
    iu_fan_demand_current_percent := fan_cur';
    iu_heat_demand_requested_percent := heat_req';
    iu_heat_demand_current_percent := heat_cur';
    iu_cool_demand_requested_percent := None;
    iu_cool_demand_current_percent := None;
    iu_humidification_demand_requested_percent := hum_req';
    iu_dehumidification_demand_requested_percent := None;
    iu_power_usage := power' |})).

(** The furnace branch ([ctIFCUnitType < 255]). *)
Definition map_furnace (p : DeviceDataResponse) : result (option (string * DaikinEquipment)) :=
  let d := dd_data p in
  let? ty := getitem d "ctIFCUnitType" in
  let? present := lt ty 255 in
  if negb present then Ok None else
  let? model := get_strip d "ctIFCModelNoCharacter1_15" in
  let? serial := get_strip d "ctIFCSerialNoCharacter1_15" in
  let eid := synthetic_id model serial in
  let? fw := get_strip d "ctIFCControlSoftwareVersion" in
  let? mode := get_strip d "ctIFCOperatingHeatCoolMode" in
  let? airflow := getitem d "ctIFCIndoorBlowerAirflow" in
  let? fan_req := get_div d "ctIFCFanRequestedDemandPercent" 2 in
  let? fan_cur := get_div d "ctIFCCurrentFanActualStatus" 2 in
  let? heat_req := get_div d "ctIFCHeatRequestedDemandPercent" 2 in
  let? heat_cur := get_div d "ctIFCCurrentHeatActualStatus" 2 in
  let? cool_req := get_div d "ctIFCCoolRequestedDemandPercent" 2 in
  let? cool_cur := get_div d "ctIFCCurrentCoolActualStatus" 2 in
  let? hum_req := get_div d "ctIFCHumRequestedDemandPercent" 2 in
  let? dehum_req := get_div d "ctIFCDehumRequestedDemandPercent" 2 in
  let? power := get_div d "ctIndoorPower" 10 in
  let? airflow' := pyd_int airflow in
  let? fan_req' := pyd_int fan_req in
  let? fan_cur' := pyd_int fan_cur in
  let? heat_req' := pyd_int heat_req in
  let? heat_cur' := pyd_int heat_cur in
  let? cool_req' := pyd_opt_int cool_req in
  let? cool_cur' := pyd_opt_int cool_cur in
  let? hum_req' := pyd_int hum_req in
  let? dehum_req' := pyd_opt_int dehum_req in
  let? power' := pyd_float power in
  Ok (Some (eid, IndoorUnit {|
    iu_id := eid; iu_thermostat_id := dd_id p; iu_name := "Furnace"; iu_model := model;
    iu_firmware_version := fw; iu_serial := serial; iu_mode := capitalize mode;
    iu_current_airflow := airflow';
    iu_fan_demand_requested_percent := fan_req';
    iu_fan_demand_current_percent := fan_cur';
    iu_heat_demand_requested_percent := heat_req';
    iu_heat_demand_current_percent := heat_cur';
    iu_cool_demand_requested_percent := cool_req';
    iu_cool_demand_current_percent := cool_cur';
    iu_humidification_demand_requested_percent := hum_req';
    iu_dehumidification_demand_requested_percent := dehum_req';
    iu_power_usage := power' |})).

(** The outdoor unit branch ([ctOutdoorUnitType < 255]). *)
Definition map_outdoor_unit (p : DeviceDataResponse) : result (option (string * DaikinEquipment)) :=
  let d := dd_data p in
  let? ty := getitem d "ctOutdoorUnitType" in
  let? present := lt ty 255 in
  if negb present then Ok None else
  let? model := get_strip d "ctOutdoorModelNoCharacter1_15" in
  let? serial := get_strip d "ctOutdoorSerialNoCharacter1_15" in
  let eid := synthetic_id model serial in
  let? max_rps := getitem d "ctOutdoorHeatMaxRPS" in
  let name := if ne max_rps 0 && ne max_rps 65535 then "Heat Pump" else "Condensing Unit" in
  let? fw := get_strip d "ctOutdoorControlSoftwareVersion" in
  let? inv_fw := get_strip d "ctOutdoorInverterSoftwareVersion" in
  let? run_raw := getitem d "ctOutdoorCompressorRunTime" in
  let? runtime := timedelta_hours run_raw in
  let? mode := get_strip d "ctOutdoorMode" in
  let? speed_target := getitem d "ctTargetCompressorspeed" in
  let? speed_current := getitem d "ctCurrentCompressorRPS" in
  let? fan_target := get_mul d "ctTargetODFanRPM" 10 in
  let? fan_rpm := getitem d "ctOutdoorFanRPM" in
  let? suction := getitem d "ctOutdoorSuctionPressure" in
  let? eev := getitem d "ctOutdoorEEVOpening" in
  let? rv_raw := getitem d "ctReversingValve" in
  let? rv := OnOffStatus.of_value rv_raw in
  let? heat_dem := get_half_round d "ctOutdoorHeatRequestedDemand" in
  let? cool_dem := get_half_round d "ctOutdoorCoolRequestedDemand" in
  let? fan_dem := get_half_round d "ctOutdoorFanRequestedDemandPercentage" in
  let? fan_airflow := getitem d "ctOutdoorRequestedIndoorAirflow" in
  let? dehum_dem := get_half_round d "ctOutdoorDeHumidificationRequestedDemand" in
  let? air_t := get_div d "ctOutdoorAirTemperature" 10 in
  let? air := from_fahrenheit air_t in
  let? coil_t := get_div d "ctOutdoorCoilTemperature" 10 in
  let? coil := from_fahrenheit coil_t in
  let? discharge_t := get_div d "ctOutdoorDischargeTemperature" 10 in
  let? discharge := from_fahrenheit discharge_t in
  let? liquid_t := get_div d "ctOutdoorLiquidTemperature" 10 in
  let? liquid := from_fahrenheit liquid_t in
  let? defrost_t := get_div d "ctOutdoorDefrostSensorTemperature" 10 in
  let? defrost := from_fahrenheit defrost_t in
  let? fin_t := getitem d "ctInverterFinTemp" in
  let? fin := from_celsius fin_t in
  let? power := get_mul d "ctOutdoorPower" 10 in
  let? comp_a := get_div d "ctCompressorCurrent" 10 in
  let? inv_a := get_div d "ctInverterCurrent" 10 in
  let? fan_a := get_div d "ctODFanMotorCurrent" 10 in
  let? cc_raw := getitem d "ctCrankCaseHeaterOnOff" in
  let? cc := OnOffStatus.of_value cc_raw in
  let? dp_raw := getitem d "ctDrainPanHeaterOnOff" in
  let? dp := OnOffStatus.of_value dp_raw in
  let? ph_raw := getitem d "ctPreHeatOnOff" in
  let? ph := OnOffStatus.of_value ph_raw in
  let? speed_target' := pyd_int speed_target in
  let? speed_current' := pyd_int speed_current in
  let? fan_target' := pyd_int fan_target in
  let? fan_rpm' := pyd_int fan_rpm in
  let? suction' := pyd_int suction in
  let? eev' := pyd_int eev in
  let? heat_dem' := pyd_int heat_dem in
  let? cool_dem' := pyd_int cool_dem in
  let? fan_dem' := pyd_int fan_dem in
  let? fan_airflow' := pyd_int fan_airflow in
  let? dehum_dem' := pyd_int dehum_dem in
  let? power' := pyd_float power in
  let? comp_a' := pyd_float comp_a in
  let? inv_a' := pyd_float inv_a in
  let? fan_a' := pyd_float fan_a in
  Ok (Some (eid, OutdoorUnit {|
    ou_id := eid; ou_thermostat_id := dd_id p; ou_name := name; ou_model := model;
    ou_serial := serial; ou_firmware_version := fw;
    ou_inverter_software_version := Some inv_fw;
    ou_total_runtime_hours := runtime;
    ou_mode := capitalize mode;
    ou_compressor_speed_target := speed_target';
    ou_compressor_speed_current := speed_current';
    ou_outdoor_fan_target_rpm := fan_target';
    ou_outdoor_fan_rpm := fan_rpm';
    ou_suction_pressure_psi := suction';
    ou_eev_opening_percent := eev';
    ou_reversing_valve := rv;
    ou_heat_demand_percent := heat_dem';
    ou_cool_demand_percent := cool_dem';
    ou_fan_demand_percent := fan_dem';
    ou_fan_demand_airflow := fan_airflow';
    ou_dehumidify_demand_percent := dehum_dem';
    ou_air_temperature := air;
    ou_coil_temperature := coil;
    ou_discharge_temperature := discharge;
    ou_liquid_temperature := liquid;
    ou_defrost_sensor_temperature := defrost;
    ou_inverter_fin_temperature := fin;
    ou_power_usage := power';
    ou_compressor_amps := comp_a';
    ou_inverter_amps := inv_a';
    ou_fan_motor_amps := fan_a';
    ou_crank_case_heater := cc;
    ou_drain_pan_heater := dp;
    ou_preheat_heater := ph |})).

(** The EEV coil branch ([ctCoilUnitType < 255]). *)
Definition map_eev_coil (p : DeviceDataResponse) : result (option (string * DaikinEquipment)) :=
  let d := dd_data p in
  let? ty := getitem d "ctCoilUnitType" in
  let? present := lt ty 255 in
  if negb present then Ok None else
  let? serial := get_strip d "ctCoilSerialNoCharacter1_15" in
  let eid := String.append "eevcoil-" serial in
  let? fw := get_strip d "ctCoilControlSoftwareVersion" in
  let? pressure := getitem d "ctEEVCoilPressureSensor" in
  let? sh_t := get_div d "ctEEVCoilSuperHeatValue" 10 in
  let? sh := from_fahrenheit sh_t in
  let? sc_t := get_div d "ctEEVCoilSubCoolValue" 10 in
  let? sc := from_fahrenheit sc_t in
  let? suc_t := get_div d "ctEEVCoilSuctionTemperature" 10 in
  let? suc := from_fahrenheit suc_t in
  let? pressure' := pyd_int pressure in
  Ok (Some (eid, EEVCoil {|
    ec_id := eid; ec_thermostat_id := dd_id p; ec_name := "EEV Coil"; ec_model := "EEV Coil";
    ec_serial := serial; ec_firmware_version := fw;
    ec_pressure_psi := pressure';
    ec_indoor_superheat_temperature := sh;
    ec_liquid_temperature := sc;
    ec_suction_temperature := suc |})).

Definition add_entry (e : option (string * DaikinEquipment)) (d : dict DaikinEquipment)
    : dict DaikinEquipment :=
  match e with Some (eid, u) => dict_set eid u d | None => d end.

(** [DaikinOne.__map_equipment] *)
Definition map_equipment (p : DeviceDataResponse) : result (dict DaikinEquipment) :=
  let? ah := map_air_handler p in
  let? furnace := map_furnace p in
  let? outdoor := map_outdoor_unit p in
  let? coil := map_eev_coil p in
  Ok (add_entry coil (add_entry outdoor (add_entry furnace (add_entry ah [])))).

(** [set.add] *)
Definition set_add (c : Capability.t) (s : list Capability.t) : list Capability.t :=
  if existsb (Capability.eqb c) s then s else s ++ [c].

(** [DaikinOne.__map_thermostat] *)
Definition map_thermostat (p : DeviceDataResponse) : result DaikinThermostat :=
  let d := dd_data p in
  let caps0 := Capability.all in
  let? cap_heat := getitem d "ctSystemCapHeat" in
  let caps1 := if truthy cap_heat then set_add Capability.HEAT caps0 else caps0 in
  let? cap_cool := getitem d "ctSystemCapCool" in
  let caps2 := if truthy cap_cool then set_add Capability.COOL caps1 else caps1 in
  let? cap_eh := getitem d "ctSystemCapEmergencyHeat" in
  let caps := if truthy cap_eh then set_add Capability.EMERGENCY_HEAT caps2 else caps2 in
  let? sched_raw := getitem d "schedEnabled" in
  let? sched := pyd_bool sched_raw in
  let? mode_raw := getitem d "mode" in
  let? mode := ThermostatMode.of_value mode_raw in
  let? status_raw := getitem d "equipmentStatus" in
  let? status := ThermostatStatus.of_value status_raw in
  let? indoor_raw := getitem d "tempIndoor" in
  let? indoor := from_celsius indoor_raw in
  let? hum := getitem d "humIndoor" in
  let? hsp_raw := getitem d "hspActive" in
  let? hsp := from_celsius hsp_raw in
  let? hmin_raw := getitem d "EquipProtocolMinHeatSetpoint" in
  let? hmin := from_celsius hmin_raw in
  let? hmax_raw := getitem d "EquipProtocolMaxHeatSetpoint" in
  let? hmax := from_celsius hmax_raw in
  let? csp_raw := getitem d "cspActive" in
  let? csp := from_celsius csp_raw in
  let? cmin_raw := getitem d "EquipProtocolMinCoolSetpoint" in
  let? cmin := from_celsius cmin_raw in
  let? cmax_raw := getitem d "EquipProtocolMaxCoolSetpoint" in
  let? cmax := from_celsius cmax_raw in
  let? equipment := map_equipment p in
  let? hum' := pyd_int hum in
  Ok {| th_id := dd_id p; th_location_id := dd_locationId p; th_name := dd_name p;
        th_model := dd_model p; th_firmware_version := dd_firmware p;
        th_online := dd_online p; th_capabilities := caps;
        th_mode := mode; th_status := status; th_schedule_enabled := sched;
        th_indoor_temperature := indoor; th_indoor_humidity := hum';
        th_set_point_heat := hsp; th_set_point_heat_min := hmin; th_set_point_heat_max := hmax;
        th_set_point_cool := csp; th_set_point_cool_min := cmin; th_set_point_cool_max := cmax;
        th_equipment := equipment |}.

(** ** Equipment categories *)

Inductive Category := AirHandler | Furnace | Outdoor | Coil.

(** The unit-type field that signals a category's presence. *)
Definition unit_type_key (c : Category) : string :=
  match c with
  | AirHandler => "ctAHUnitType"
  | Furnace => "ctIFCUnitType"
  | Outdoor => "ctOutdoorUnitType"
  | Coil => "ctCoilUnitType"
  end.

(** The branch of [__map_equipment] that decodes a category. *)
Definition branch (c : Category) : DeviceDataResponse -> result (option (string * DaikinEquipment)) :=
  match c with
  | AirHandler => map_air_handler
  | Furnace => map_furnace
  | Outdoor => map_outdoor_unit
  | Coil => map_eev_coil
  end.

(** The category of a decoded record: indoor units are told apart by the
    name their branch gives them. *)
Definition category_of (e : DaikinEquipment) : Category :=
  match e with
  | IndoorUnit u => if String.eqb (iu_name u) "Air Handler" then AirHandler else Furnace
  | OutdoorUnit _ => Outdoor
  | EEVCoil _ => Coil
  end.

Definition is_outdoor (e : DaikinEquipment) : bool :=
  match e with OutdoorUnit _ => true | _ => false end.

(** The outdoor-unit entries of an equipment map. *)
Definition outdoor_entries (d : dict DaikinEquipment) : dict DaikinEquipment :=
  List.filter (fun kv => is_outdoor (snd kv)) d.

(** ** Scaled demand fields *)

(** The record value [z] is the raw field [d[k]] divided by the vendor
    scale 2 and rounded to one decimal. *)
Definition halved (d : pyval) (k : string) (z : Z) : Prop :=
  exists v q, getitem d k = Ok v /\ as_num v = Some q /\ (inject_Z z == round1 (q / 2))%Q.

Definition halved_opt (d : pyval) (k : string) (oz : option Z) : Prop :=
  exists z, oz = Some z /\ halved d k z.

(** Every demand-percentage field of a decoded record against its raw
    payload field. *)
Definition demand_fields_scaled (d : pyval) (e : DaikinEquipment) : Prop :=
  match e with
  | IndoorUnit u =>
      if String.eqb (iu_name u) "Air Handler" then
        halved d "ctAHFanRequestedDemand" (iu_fan_demand_requested_percent u) /\
        halved d "ctAHFanCurrentDemandStatus" (iu_fan_demand_current_percent u) /\
        halved d "ctAHHeatRequestedDemand" (iu_heat_demand_requested_percent u) /\
        halved d "ctAHHeatCurrentDemandStatus" (iu_heat_demand_current_percent u) /\
        halved d "ctAHHumidificationRequestedDemand" (iu_humidification_demand_requested_percent u)
      else
        halved d "ctIFCFanRequestedDemandPercent" (iu_fan_demand_requested_percent u) /\
        halved d "ctIFCCurrentFanActualStatus" (iu_fan_demand_current_percent u) /\
        halved d "ctIFCHeatRequestedDemandPercent" (iu_heat_demand_requested_percent u) /\
        halved d "ctIFCCurrentHeatActualStatus" (iu_heat_demand_current_percent u) /\
        halved_opt d "ctIFCCoolRequestedDemandPercent" (iu_cool_demand_requested_percent u) /\
        halved_opt d "ctIFCCurrentCoolActualStatus" (iu_cool_demand_current_percent u) /\
        halved d "ctIFCHumRequestedDemandPercent" (iu_humidification_demand_requested_percent u) /\
        halved_opt d "ctIFCDehumRequestedDemandPercent" (iu_dehumidification_demand_requested_percent u)
  | OutdoorUnit u =>
      halved d "ctOutdoorHeatRequestedDemand" (ou_heat_demand_percent u) /\
      halved d "ctOutdoorCoolRequestedDemand" (ou_cool_demand_percent u) /\
      halved d "ctOutdoorFanRequestedDemandPercentage" (ou_fan_demand_percent u) /\
      halved d "ctOutdoorDeHumidificationRequestedDemand" (ou_dehumidify_demand_percent u)
  | EEVCoil _ => True
  end.

End Decode.

Module Samples.
Import Decode.

(** A device-data payload in the shape the API returns, with the unit
    types, the outdoor model and serial and the coil serial as
    parameters. *)
Definition sample_data (ah_type ifc_type od_type coil_type : Z)
    (od_model od_serial coil_serial : string) : pyval :=
  PDict [
    ("ctSystemCapHeat", PBool true);
    ("ctSystemCapCool", PBool true);
    ("ctSystemCapEmergencyHeat", PBool false);
    ("schedEnabled", PBool false);
    ("mode", PInt 1);
    ("equipmentStatus", PInt 5);
    ("tempIndoor", PFloat (2135 # 100));
    ("humIndoor", PInt 41);
    ("hspActive", PFloat (205 # 10));
    ("EquipProtocolMinHeatSetpoint", PInt 10);
    ("EquipProtocolMaxHeatSetpoint", PInt 32);
    ("cspActive", PInt 24);
    ("EquipProtocolMinCoolSetpoint", PInt 10);
    ("EquipProtocolMaxCoolSetpoint", PInt 32);
    ("ctAHUnitType", PInt ah_type);
    ("ctAHModelNoCharacter1_15", PStr "MBVC2000AA-1 ");
    ("ctAHSerialNoCharacter1_15", PStr " 1705123456");
    ("ctAHControlSoftwareVersion", PStr "1.2 ");
    ("ctAHMode", PStr "HEAT ");
    ("ctAHCurrentIndoorAirflow", PInt 650);
    ("ctAHFanRequestedDemand", PInt 100);
    ("ctAHFanCurrentDemandStatus", PInt 98);
    ("ctAHHeatRequestedDemand", PInt 0);
    ("ctAHHeatCurrentDemandStatus", PInt 0);
    ("ctAHHumidificationRequestedDemand", PInt 0);
    ("ctIndoorPower", PInt 153);
    ("ctIFCUnitType", PInt ifc_type);
    ("ctIFCModelNoCharacter1_15", PStr "DM97MC");
    ("ctIFCSerialNoCharacter1_15", PStr "F1");
    ("ctIFCControlSoftwareVersion", PStr "2.0");
    ("ctIFCOperatingHeatCoolMode", PStr "idle");
    ("ctIFCIndoorBlowerAirflow", PInt 0);
    ("ctIFCFanRequestedDemandPercent", PInt 0);
    ("ctIFCCurrentFanActualStatus", PInt 0);
    ("ctIFCHeatRequestedDemandPercent", PInt 0);
    ("ctIFCCurrentHeatActualStatus", PInt 0);
    ("ctIFCCoolRequestedDemandPercent", PInt 0);
    ("ctIFCCurrentCoolActualStatus", PInt 0);
    ("ctIFCHumRequestedDemandPercent", PInt 0);
    ("ctIFCDehumRequestedDemandPercent", PInt 0);
    ("ctOutdoorUnitType", PInt od_type);
    ("ctOutdoorModelNoCharacter1_15", PStr od_model);
    ("ctOutdoorSerialNoCharacter1_15", PStr od_serial);
    ("ctOutdoorHeatMaxRPS", PInt 90);
    ("ctOutdoorControlSoftwareVersion", PStr "3.1");
    ("ctOutdoorInverterSoftwareVersion", PStr "7 ");
    ("ctOutdoorCompressorRunTime", PInt 1234);
    ("ctOutdoorMode", PStr "HEAT");
    ("ctTargetCompressorspeed", PInt 40);
    ("ctCurrentCompressorRPS", PInt 38);
    ("ctTargetODFanRPM", PInt 60);
    ("ctOutdoorFanRPM", PInt 590);
    ("ctOutdoorSuctionPressure", PInt 120);
    ("ctOutdoorEEVOpening", PInt 35);
    ("ctReversingValve", PInt 1);
    ("ctOutdoorHeatRequestedDemand", PInt 120);
    ("ctOutdoorCoolRequestedDemand", PInt 0);
    ("ctOutdoorFanRequestedDemandPercentage", PInt 100);
    ("ctOutdoorRequestedIndoorAirflow", PInt 650);
    ("ctOutdoorDeHumidificationRequestedDemand", PInt 0);
    ("ctOutdoorAirTemperature", PInt 412);
    ("ctOutdoorCoilTemperature", PInt 300);
    ("ctOutdoorDischargeTemperature", PInt 1500);
    ("ctOutdoorLiquidTemperature", PInt 900);
    ("ctOutdoorDefrostSensorTemperature", PInt 310);
    ("ctInverterFinTemp", PInt 45);
    ("ctOutdoorPower", PInt 12);
    ("ctCompressorCurrent", PInt 55);
    ("ctInverterCurrent", PInt 60);
    ("ctODFanMotorCurrent", PInt 8);
    ("ctCrankCaseHeaterOnOff", PInt 0);
    ("ctDrainPanHeaterOnOff", PInt 255);
    ("ctPreHeatOnOff", PInt 0);
    ("ctCoilUnitType", PInt coil_type);
    ("ctCoilSerialNoCharacter1_15", PStr coil_serial);
    ("ctCoilControlSoftwareVersion", PStr "1.0");
    ("ctEEVCoilPressureSensor", PInt 118);
    ("ctEEVCoilSuperHeatValue", PInt 80);
    ("ctEEVCoilSubCoolValue", PInt 60);
    ("ctEEVCoilSuctionTemperature", PInt 400) ].

Definition sample_device (data : pyval) : DeviceDataResponse :=
  {| dd_id := "0a1b"; dd_locationId := "loc"; dd_name := "Main"; dd_model := "ONEPLUS";
     dd_firmware := "3.4.1"; dd_online := true; dd_data := data |}.

End Samples.

Module Store.
Import Decode.

(** Object identities of the thermostat objects. *)
Definition loc := positive.

(** The thermostat cache [DaikinOne.__thermostats] (a dict from id to
    object) and the objects it and the callers hold. *)
Record Store := {
  cache : dict loc;
  heap : gmap loc DaikinThermostat
}.

Definition SM := M Store.

(** [d.get(k)] *)
Fixpoint dict_get {V} (k : string) (d : dict V) : option V :=
  match d with
  | [] => None
  | (k', v) :: r => if String.eqb k' k then Some v else dict_get k r
  end.

(** A new object holding [v]. *)
Definition alloc (v : DaikinThermostat) : SM loc :=
  fun s => let l := fresh (dom (heap s)) in
           (Ok l, {| cache := cache s; heap := <[l := v]> (heap s) |}).

(** [copy.deepcopy] of a thermostat object: a new object with the same
    contents (a thermostat record owns its nested values). Every object
    the cache refers to is live; a dangling reference would be an
    [AttributeError]. *)
Definition deepcopy (l : loc) : SM loc :=
  fun s => match heap s !! l with
           | Some v => alloc v s
           | None => (Err AttributeError, s)
           end.

(** [DaikinOne.get_thermostat] *)
Definition get_thermostat (thermostat_id : string) : SM loc :=
  fun s => match dict_get thermostat_id (cache s) with
           | Some l => deepcopy l s
           | None => (Err (KeyError thermostat_id), s)
           end.

(** [copy.deepcopy] of the cache dict: a new dict, its values copied in
    order. *)
Fixpoint deepcopy_dict (d : dict loc) : SM (dict loc) :=
  match d with
  | [] => mret []
  | (k, l) :: r =>
      let! l' := deepcopy l in
      let! r' := deepcopy_dict r in
      mret ((k, l') :: r')
  end.

(** [DaikinOne.get_thermostats] *)
Definition get_thermostats : SM (dict loc) :=
  fun s => deepcopy_dict (cache s) s.

(** An attribute assignment on the object [l], e.g. [t.mode = m]. *)
Definition set_obj (l : loc) (f : DaikinThermostat -> DaikinThermostat) : SM unit :=
  fun s => match heap s !! l with
           | Some v => (Ok tt, {| cache := cache s; heap := <[l := f v]> (heap s) |})
           | None => (Err AttributeError, s)
           end.

(** The contents of the object the cache holds for an id. *)
Definition cached_value (s : Store) (thermostat_id : string) : option DaikinThermostat :=
  match dict_get thermostat_id (cache s) with
  | Some l => heap s !! l
  | None => None
  end.

(** Every object the cache refers to is live. *)
Definition live_cache (s : Store) : bool :=
  forallb (fun kl => bool_decide (snd kl ∈ dom (heap s))) (cache s).

(** Every entry of the dict refers to an object holding the thermostat
    whose id is the entry's key. *)
Definition keyed_objects (h : gmap loc DaikinThermostat) (d : dict loc) : Prop :=
  Forall (fun kl => exists t, h !! snd kl = Some t /\ th_id t = fst kl) d.

(** The [DaikinOne] client: its transport state and its cache. *)
Record Client := {
  c_transport : Transport.TState;
  c_store : Store
}.

Definition on_transport {A} (m : M Transport.TState A) : M Client A :=
  fun c => let '(r, t) := m (c_transport c) in (r, {| c_transport := t; c_store := c_store c |}).

Definition on_store {A} (m : SM A) : M Client A :=
  fun c => let '(r, st) := m (c_store c) in (r, {| c_transport := c_transport c; c_store := st |}).

Definition DAIKIN_API_URL_DEVICE_DATA : string := "https://api.daikinskyport.com/deviceData".

(** [for x in v]: lists, the keys of a dict, the characters of a str. *)
Definition py_iter (v : pyval) : result (list pyval) :=
  match v with
  | PList l => Ok l
  | PDict kv => Ok (map (fun p => PStr (fst p)) kv)
  | PStr s => Ok (map (fun c => PStr (String c EmptyString)) (list_ascii_of_string s))
  | _ => Err TypeError
  end.

(** [DaikinDeviceDataResponse] built from the keyword arguments of
    [device]: unpacking needs a mapping, then pydantic validates the
    fields (extra keys are ignored). *)
Definition device_data_response (v : pyval) : result DeviceDataResponse :=
  match v with
  | PDict _ =>
      let field k := match getitem v k with Ok x => Ok x | Err _ => Err ValidationError end in
      let? id_ := field "id" in let? id' := pyd_str id_ in
      let? loc_ := field "locationId" in let? loc' := pyd_str loc_ in
      let? name_ := field "name" in let? name' := pyd_str name_ in
      let? model_ := field "model" in let? model' := pyd_str model_ in
      let? fw_ := field "firmware" in let? fw' := pyd_str fw_ in
      let? online_ := field "online" in let? online' := pyd_bool online_ in
      let? data_ := field "data" in
      match data_ with
      | PDict _ =>
          Ok {| dd_id := id'; dd_locationId := loc'; dd_name := name'; dd_model := model';
                dd_firmware := fw'; dd_online := online'; dd_data := data_ |}
      | _ => Err ValidationError
      end
  | _ => Err TypeError
  end.

(** The list comprehension validating every device of the response. *)
Fixpoint validate_all (l : list pyval) : result (list DeviceDataResponse) :=
  match l with
  | [] => Ok []
  | v :: r => let? p := device_data_response v in let? ps := validate_all r in Ok (p :: ps)
  end.

(** [{device.id: self.__map_thermostat(device) for device in devices}]:
    each decoded thermostat is a new object; the dict is built aside. *)
Fixpoint build_cache (ps : list DeviceDataResponse) (acc : dict loc) : SM (dict loc) :=
  match ps with
  | [] => mret acc
  | p :: r =>
      let! t := mlift (map_thermostat p) in
      let! l := alloc t in
      build_cache r (dict_set (dd_id p) l acc)
  end.

Definition set_cache (d : dict loc) : SM unit :=
  fun s => (Ok tt, {| cache := d; heap := heap s |}).

(** [DaikinOne.__refresh_thermostats]; [DaikinOne.update] is this call. *)
Definition refresh_thermostats (backend : list Transport.HttpCall -> Transport.HttpCall -> Transport.Response)
    : M Client unit :=
  let! devices := on_transport (Transport.req backend DAIKIN_API_URL_DEVICE_DATA "GET" None true) in
  let! items := mlift (py_iter devices) in
  let! parsed := mlift (validate_all items) in
  let! d := on_store (build_cache parsed []) in
  on_store (set_cache d).

(** [DaikinThermostatMode.value] *)
Definition mode_value (m : ThermostatMode.t) : Z :=
  match m with
  | ThermostatMode.OFF => 0 | ThermostatMode.HEAT => 1 | ThermostatMode.COOL => 2
  | ThermostatMode.AUTO => 3 | ThermostatMode.AUX_HEAT => 4
  end.

(** [DaikinOne.set_thermostat_mode] *)
Definition set_thermostat_mode (backend : list Transport.HttpCall -> Transport.HttpCall -> Transport.Response)
    (thermostat_id : string) (mode : ThermostatMode.t) : M Client unit :=
  let! _ := on_transport (Transport.req backend
              (String.append DAIKIN_API_URL_DEVICE_DATA (String.append "/" thermostat_id))
              "PUT" (Some (PDict [("mode", PInt (mode_value mode))])) true) in
  mret tt.

(** [DaikinOne.set_thermostat_home_set_points]; a [Temperature] defines
    neither [__bool__] nor [__len__], so [not heat] holds exactly when
    [heat] is [None]. *)
Definition set_thermostat_home_set_points
    (backend : list Transport.HttpCall -> Transport.HttpCall -> Transport.Response)
    (thermostat_id : string) (heat cool : option Temperature) (override_schedule : bool)
    : M Client unit :=
  let not_set {A} (o : option A) := match o with None => true | Some _ => false end in
  if not_set heat && not_set cool then
    mraise (ValueError "At least one of heat or cool set points must be set")
  else
    let payload := @nil (string * pyval) in
    let payload := match heat with
                   | Some h => dict_set "hspHome" (PFloat (celsius h)) payload
                   | None => payload
                   end in
    let payload := match cool with
                   | Some c => dict_set "cspHome" (PFloat (celsius c)) payload
                   | None => payload
                   end in
    let payload := if override_schedule then dict_set "schedOverride" (PInt 1) payload
                   else payload in
    let! _ := on_transport (Transport.req backend
                (String.append DAIKIN_API_URL_DEVICE_DATA (String.append "/" thermostat_id))
                "PUT" (Some (PDict payload)) true) in
    mret tt.

(** The URL of a device: [f"{DAIKIN_API_URL_DEVICE_DATA}/{id}"]. *)
Definition device_url (thermostat_id : string) : string :=
  String.append DAIKIN_API_URL_DEVICE_DATA (String.append "/" thermostat_id).


End Store.

Module Climate.
Import Transport Decode Store.

(** The state the thermostat climate entity runs in: the shared
    [DaikinOneData] (its client and the [Throttle] state of its [_update]),
    a clock in seconds, the entity's attributes ([self._thermostat],
    [self._updates_paused], its [_attr_*] values) and the states Home
    Assistant received from [async_write_ha_state] (most recent first). *)
Record World := {
  w_client : Client;
  w_throttle : option Q;
  w_clock : Q;
  w_thermostat : loc;
  w_paused : bool;
  w_attrs : dict pyval;
  w_published : list (dict pyval)
}.

Definition with_client (w : World) (c : Client) : World :=
  {| w_client := c; w_throttle := w_throttle w; w_clock := w_clock w;
     w_thermostat := w_thermostat w; w_paused := w_paused w; w_attrs := w_attrs w;
     w_published := w_published w |}.
Definition with_throttle (w : World) (t : option Q) : World :=
  {| w_client := w_client w; w_throttle := t; w_clock := w_clock w;
     w_thermostat := w_thermostat w; w_paused := w_paused w; w_attrs := w_attrs w;
     w_published := w_published w |}.
Definition with_clock (w : World) (t : Q) : World :=
  {| w_client := w_client w; w_throttle := w_throttle w; w_clock := t;
     w_thermostat := w_thermostat w; w_paused := w_paused w; w_attrs := w_attrs w;
     w_published := w_published w |}.
Definition with_thermostat (w : World) (l : loc) : World :=
  {| w_client := w_client w; w_throttle := w_throttle w; w_clock := w_clock w;
     w_thermostat := l; w_paused := w_paused w; w_attrs := w_attrs w;
     w_published := w_published w |}.
Definition with_attrs (w : World) (a : dict pyval) : World :=
  {| w_client := w_client w; w_throttle := w_throttle w; w_clock := w_clock w;
     w_thermostat := w_thermostat w; w_paused := w_paused w; w_attrs := a;
     w_published := w_published w |}.
Definition with_published (w : World) (ps : list (dict pyval)) : World :=
  {| w_client := w_client w; w_throttle := w_throttle w; w_clock := w_clock w;
     w_thermostat := w_thermostat w; w_paused := w_paused w; w_attrs := w_attrs w;
     w_published := ps |}.

(** Attribute assignments on a thermostat object. *)
Definition th_with (t : DaikinThermostat) (mode : ThermostatMode.t) (hsp csp : Temperature)
    : DaikinThermostat :=
  {| th_id := th_id t; th_name := th_name t; th_model := th_model t;
     th_firmware_version := th_firmware_version t; th_location_id := th_location_id t;
     th_online := th_online t; th_capabilities := th_capabilities t; th_mode := mode;
     th_status := th_status t; th_schedule_enabled := th_schedule_enabled t;
     th_indoor_temperature := th_indoor_temperature t; th_indoor_humidity := th_indoor_humidity t;
     th_set_point_heat := hsp; th_set_point_heat_min := th_set_point_heat_min t;
     th_set_point_heat_max := th_set_point_heat_max t; th_set_point_cool := csp;
     th_set_point_cool_min := th_set_point_cool_min t;
     th_set_point_cool_max := th_set_point_cool_max t; th_equipment := th_equipment t |}.

(** [t.mode = m] *)
Definition set_mode (m : ThermostatMode.t) (t : DaikinThermostat) : DaikinThermostat :=
  th_with t m (th_set_point_heat t) (th_set_point_cool t).
(** [t.set_point_heat = h] *)
Definition set_point_heat (h : Temperature) (t : DaikinThermostat) : DaikinThermostat :=
  th_with t (th_mode t) h (th_set_point_cool t).
(** [t.set_point_cool = c] *)
Definition set_point_cool (c : Temperature) (t : DaikinThermostat) : DaikinThermostat :=
  th_with t (th_mode t) (th_set_point_heat t) c.

(** The entity's computations: they may raise, and a run observed for a
    bounded number of confirmation attempts may not have finished
    ([None]). *)
Definition CM (A : Type) := World -> option (result A * World).

Definition cret {A} (a : A) : CM A := fun w => Some (Ok a, w).
Definition craise {A} (e : Exn) : CM A := fun w => Some (Err e, w).
Definition cbind {A B} (m : CM A) (k : A -> CM B) : CM B :=
  fun w => match m w with
           | Some (Ok a, w') => k a w'
           | Some (Err e, w') => Some (Err e, w')
           | None => None
           end.
Definition cget : CM World := fun w => Some (Ok w, w).
Definition cmodify (f : World -> World) : CM unit := fun w => Some (Ok tt, f w).
Definition clift {A} (r : result A) : CM A := fun w => Some (r, w).

Declare Scope climate_scope.
Notation "'let*' x ':=' c 'in' k" := (cbind c (fun x => k))
  (at level 200, x name, c at level 100, k at level 200) : climate_scope.
Local Open Scope climate_scope.

(** A call on the shared [DaikinOne] client. *)
Definition on_daikin {A} (m : M Client A) : CM A :=
  fun w => let '(r, c) := m (w_client w) in Some (r, with_client w c).

Definition MIN_TIME_BETWEEN_UPDATES : Q := 30.
Definition MAX_TIME : Q := 10.
Definition FAN_AUTO : pyval := PStr "auto".

(** Home Assistant's [HVACMode] (a [StrEnum]) and its values. *)
Module HVACMode.
Inductive t := OFF | HEAT | COOL | HEAT_COOL | AUTO | DRY | FAN_ONLY.
Definition value (m : t) : string :=
  match m with
  | OFF => "off" | HEAT => "heat" | COOL => "cool" | HEAT_COOL => "heat_cool"
  | AUTO => "auto" | DRY => "dry" | FAN_ONLY => "fan_only"
  end.
End HVACMode.

(** Home Assistant's [ClimateEntityFeature] flags. *)
Definition TARGET_TEMPERATURE : Z := 1.
Definition TARGET_TEMPERATURE_RANGE : Z := 2.
Definition FAN_MODE : Z := 8.
Definition PRESET_MODE : Z := 16.
Definition TURN_OFF : Z := 128.
Definition TURN_ON : Z := 256.

(** [c in self._thermostat.capabilities] *)
Definition cap_in (c : Capability.t) (t : DaikinThermostat) : bool :=
  existsb (Capability.eqb c) (th_capabilities t).

(** [DaikinOneThermostat.get_hvac_modes] *)
Definition get_hvac_modes (t : DaikinThermostat) : list HVACMode.t :=
  let modes := @nil HVACMode.t in
  let modes := if cap_in Capability.HEAT t && cap_in Capability.COOL t
               then modes ++ [HVACMode.HEAT_COOL] else modes in
  let modes := if cap_in Capability.HEAT t then modes ++ [HVACMode.HEAT] else modes in
  let modes := if cap_in Capability.COOL t then modes ++ [HVACMode.COOL] else modes in
  modes ++ [HVACMode.OFF].

(** The attributes [DaikinOneThermostat.__init__] derives from the
    thermostat. *)
Record EntityInit := {
  ei_unique_id : string;
  ei_supported_features : Z;
  ei_hvac_modes : list HVACMode.t;
  ei_preset_modes : list string
}.

(** [DaikinOneThermostat.__init__] *)
Definition entity_init (t : DaikinThermostat) : EntityInit :=
  let features := Z.lor (Z.lor (Z.lor (Z.lor TURN_ON TURN_OFF) TARGET_TEMPERATURE)
                    TARGET_TEMPERATURE_RANGE) FAN_MODE in
  let hvac_modes := get_hvac_modes t in
  let preset_modes := ["none"] in
  let '(features, preset_modes) :=
    if cap_in Capability.EMERGENCY_HEAT t
    then (Z.lor features PRESET_MODE, preset_modes ++ ["emergency_heat"])
    else (features, preset_modes) in
  {| ei_unique_id := String.append (th_id t) "-climate";
     ei_supported_features := features; ei_hvac_modes := hvac_modes;
     ei_preset_modes := preset_modes |}.

Section Entity.
(** The device-data endpoint of the Daikin API. *)
Variable backend : list HttpCall -> HttpCall -> Response.
(** The value the fan block of [update_entity_attributes] assigns to
    [_attr_fan_mode]; it reads [fan], [fan_mode] and [fan_speed] of the
    thermostat. *)
Variable fan_attr : DaikinThermostat -> result pyval.
(** The draw of [full_jitter] ([random.uniform(0, 1)]) after each failed
    confirmation attempt. *)
Variable jitter : nat -> Q.
(** Whether Home Assistant's scheduled poll of the entity runs during the
    sleep after each failed confirmation attempt. *)
Variable poll : nat -> bool.
(** The seconds the [tries]-th confirmation attempt takes: its
    [self._data.update(no_throttle=True)] awaits the device-list request
    of the Daikin API. *)
Variable attempt_time : nat -> Q.
(** The number of confirmation attempts a run is observed for. *)
Variable fuel : nat.

(** [DaikinOneData.update]: [_update] under [Throttle(30 s)]; the wrapper
    records the call time before the coroutine runs and always runs it
    with [no_throttle=True] (its lock is free between two awaits). *)
Definition data_update (no_throttle : bool) : CM unit :=
  let* w := cget in
  let force := no_throttle || match w_throttle w with None => true | Some _ => false end in
  let due := match w_throttle w with
             | Some t => Qlt_bool MIN_TIME_BETWEEN_UPDATES (w_clock w - t)%Q
             | None => false
             end in
  if force || due then
    let* _ := cmodify (fun w => with_throttle w (Some (w_clock w))) in
    on_daikin (refresh_thermostats backend)
  else cret tt.

(** The contents of the object [l]. *)
Definition obj (l : loc) : CM DaikinThermostat :=
  fun w => match heap (c_store (w_client w)) !! l with
           | Some t => Some (Ok t, w)
           | None => Some (Err AttributeError, w)
           end.

(** The contents of [self._thermostat]. *)
Definition this_thermostat : CM DaikinThermostat :=
  fun w => obj (w_thermostat w) w.

(** [self._attr_k = v] *)
Definition set_attr (k : string) (v : pyval) : CM unit :=
  cmodify (fun w => with_attrs w (dict_set k v (w_attrs w))).

Definition py_max (a b : Q) : Q := if Qlt_bool a b then b else a.
Definition py_min (a b : Q) : Q := if Qlt_bool b a then b else a.

(** [DaikinOneThermostat.update_entity_attributes] *)
Definition update_entity_attributes : CM unit :=
  let* t := this_thermostat in
  let* _ := set_attr "_attr_available" (PBool (th_online t)) in
  let* _ := set_attr "_attr_current_temperature" (PFloat (celsius (th_indoor_temperature t))) in
  let* _ := set_attr "_attr_current_humidity" (PInt (th_indoor_humidity t)) in
  let* _ := set_attr "_attr_preset_mode" (PStr "none") in
  let* _ := match th_mode t with
            | ThermostatMode.AUTO => set_attr "_attr_hvac_mode" (PStr "heat_cool")
            | ThermostatMode.HEAT => set_attr "_attr_hvac_mode" (PStr "heat")
            | ThermostatMode.COOL => set_attr "_attr_hvac_mode" (PStr "cool")
            | ThermostatMode.AUX_HEAT =>
                let* _ := set_attr "_attr_hvac_mode" (PStr "heat") in
                set_attr "_attr_preset_mode" (PStr "emergency_heat")
            | ThermostatMode.OFF => set_attr "_attr_hvac_mode" (PStr "off")
            end in
  let* _ := match th_status t with
            | ThermostatStatus.HEATING => set_attr "_attr_hvac_action" (PStr "heating")
            | ThermostatStatus.COOLING => set_attr "_attr_hvac_action" (PStr "cooling")
            | ThermostatStatus.CIRCULATING_AIR => set_attr "_attr_hvac_action" (PStr "fan")
            | ThermostatStatus.DRYING => set_attr "_attr_hvac_action" (PStr "drying")
            | ThermostatStatus.IDLE => set_attr "_attr_hvac_action" (PStr "idle")
            end in
  let* _ := set_attr "_attr_target_temperature" PNone in
  let* _ := set_attr "_attr_target_temperature_low" PNone in
  let* _ := set_attr "_attr_target_temperature_high" PNone in
  let* _ := match th_mode t with
            | ThermostatMode.HEAT | ThermostatMode.AUX_HEAT =>
                set_attr "_attr_target_temperature" (PFloat (celsius (th_set_point_heat t)))
            | ThermostatMode.COOL =>
                set_attr "_attr_target_temperature" (PFloat (celsius (th_set_point_cool t)))
            | ThermostatMode.AUTO =>
                let* _ := set_attr "_attr_target_temperature_low"
                            (PFloat (celsius (th_set_point_heat t))) in
                set_attr "_attr_target_temperature_high" (PFloat (celsius (th_set_point_cool t)))
            | _ => cret tt
            end in
  let* _ := set_attr "_attr_min_temp"
              (PFloat (py_max (celsius (th_set_point_heat_min t)) (celsius (th_set_point_cool_min t)))) in
  let* _ := set_attr "_attr_max_temp"
              (PFloat (py_min (celsius (th_set_point_heat_max t)) (celsius (th_set_point_cool_max t)))) in
  let* _ := set_attr "_attr_fan_mode" FAN_AUTO in
  let* fan := clift (fan_attr t) in
  set_attr "_attr_fan_mode" fan.

(** [async_write_ha_state] *)
Definition write_ha_state : CM unit :=
  cmodify (fun w => with_published w (w_attrs w :: w_published w)).

(** [DaikinOneThermostat.async_update] *)
Definition async_update (no_throttle : bool) : CM unit :=
  let* w := cget in
  if w_paused w then cret tt else
  let* _ := data_update no_throttle in
  let* t := this_thermostat in
  let* l := on_daikin (on_store (get_thermostat (th_id t))) in
  let* _ := cmodify (fun w => with_thermostat w l) in
  update_entity_attributes.

(** Home Assistant's scheduled poll: [async_update_ha_state(True)] runs
    [async_update], logs an exception instead of raising it, and writes
    the state after a successful update. *)
Definition ha_poll : CM unit :=
  fun w => match async_update false w with
           | Some (Ok _, w') => write_ha_state w'
           | Some (Err _, w') => Some (Ok tt, w')
           | None => None
           end.

(** One confirmation attempt: the body of [_wait_for_updated_value]. *)
Definition wait_target (check : DaikinThermostat -> bool) : CM bool :=
  let* _ := data_update true in
  let* t := this_thermostat in
  let* l := on_daikin (on_store (get_thermostat (th_id t))) in
  let* c := obj l in
  cret (check c).

(** [m], awaited for [seconds] of wall-clock time, whether it returns or
    raises. *)
Definition timed {A} (seconds : Q) (m : CM A) : CM A :=
  fun w => match m w with
           | Some (r, w1) => Some (r, with_clock w1 (w_clock w1 + seconds)%Q)
           | None => None
           end.

(** [asyncio.sleep(seconds)]; the scheduled poll may run meanwhile. *)
Definition sleep (tries : nat) (seconds : Q) : CM unit :=
  let* _ := cmodify (fun w => with_clock w (w_clock w + seconds)%Q) in
  if poll tries then ha_poll else cret tt.

(** The retry loop of [backoff.on_predicate(backoff.constant, max_time=10)]
    (predicate [operator.not_], [full_jitter], no [max_tries]): [elapsed]
    is read before each attempt, and the attempt then takes
    [attempt_time tries] seconds; a falsy result is retried after
    [min(jitter, max_time - elapsed)] seconds unless [elapsed >= max_time],
    in which case the loop gives up and returns the result. [n] bounds the
    attempts the run is observed for. *)
Fixpoint retry (n : nat) (check : DaikinThermostat -> bool) (start : Q) (tries : nat) : CM bool :=
  match n with
  | O => fun _ => None
  | S n' =>
      let* w := cget in
      let elapsed := (w_clock w - start)%Q in
      let* ret := timed (attempt_time tries) (wait_target check) in
      if negb ret then
        if Qle_bool MAX_TIME elapsed then cret ret
        else
          let value := jitter tries in
          let seconds := if Qlt_bool (MAX_TIME - elapsed)%Q value then (MAX_TIME - elapsed)%Q else value in
          let* _ := sleep tries seconds in
          retry n' check start (S tries)
      else cret ret
  end.

(** [DaikinOneThermostat._wait_for_updated_value] with its decorator. *)
Definition wait_for_updated_value (check : DaikinThermostat -> bool) : CM bool :=
  let* w := cget in
  retry fuel check (w_clock w) 1.

(** [DaikinOneThermostat.update_state_optimistically]: [_updates_paused]
    is a local variable of the method, not the entity's attribute. *)
Definition update_state_optimistically (update : DaikinThermostat -> DaikinThermostat)
    (check : DaikinThermostat -> bool) : CM unit :=
  let _updates_paused := true in
  let* w := cget in
  let* _ := on_daikin (on_store (set_obj (w_thermostat w) update)) in
  let* _ := update_entity_attributes in
  let* _ := write_ha_state in
  let* _ := wait_for_updated_value check in
  let _updates_paused := false in
  let* _ := async_update true in
  write_ha_state.

(** [DaikinOneThermostat.set_thermostat_mode] *)
Definition set_thermostat_mode (target_mode : ThermostatMode.t) : CM unit :=
  let* t := this_thermostat in
  let* _ := on_daikin (Store.set_thermostat_mode backend (th_id t) target_mode) in
  update_state_optimistically (set_mode target_mode)
    (fun t => ThermostatMode.eqb (th_mode t) target_mode).

(** [t.set_point_heat == heat] where [heat] may be [None]:
    [Temperature.__eq__] is false against a non-temperature. *)
Definition temp_eq_opt (t : Temperature) (o : option Temperature) : bool :=
  match o with Some h => temp_eqb t h | None => false end.

(** Truthiness of a float keyword argument ([None] or a float); the
    [elif temperature] test is the same on [temperature]. *)
Definition float_truthy (o : option Q) : bool :=
  match o with Some q => negb (Qeq_bool q 0) | None => false end.

(** [DaikinOneThermostat.async_set_temperature] with the keyword arguments
    [temperature], [target_temp_low] and [target_temp_high]
    ([kwargs.get]: a float or [None]); [Temperature.from_celsius] of a
    float is [temp_init]. *)
Definition async_set_temperature (temperature target_temp_low target_temp_high : option Q)
    : CM unit :=
  if float_truthy target_temp_low || float_truthy target_temp_high then
    let heat := option_map temp_init target_temp_low in
    let cool := option_map temp_init target_temp_high in
    let* t := this_thermostat in
    let* _ := on_daikin (set_thermostat_home_set_points backend (th_id t) heat cool
                           (th_schedule_enabled t)) in
    update_state_optimistically
      (fun t => let t := match heat with Some h => set_point_heat h t | None => t end in
                match cool with Some c => set_point_cool c t | None => t end)
      (fun t => temp_eq_opt (th_set_point_heat t) heat && temp_eq_opt (th_set_point_cool t) cool)
  else
    let no_values := craise (ValueError "Set temperature called with no temperature values") in
    match temperature with
    | Some q =>
        if negb (Qeq_bool q 0) then
          let temperature := temp_init q in
          let* t := this_thermostat in
          match th_mode t with
          | ThermostatMode.HEAT | ThermostatMode.AUX_HEAT =>
              let* _ := on_daikin (set_thermostat_home_set_points backend (th_id t)
                                     (Some temperature) None false) in
              update_state_optimistically (set_point_heat temperature)
                (fun t => temp_eqb (th_set_point_heat t) temperature)
          | ThermostatMode.COOL =>
              let* _ := on_daikin (set_thermostat_home_set_points backend (th_id t)
                                     None (Some temperature) false) in
              update_state_optimistically (set_point_cool temperature)
                (fun t => temp_eqb (th_set_point_cool t) temperature)
          | _ => craise (ValueError "Invalid thermostat mode and set temperature combination")
          end
        else no_values
    | None => no_values
    end.

(** [DaikinOneThermostat.async_set_hvac_mode] *)
Definition async_set_hvac_mode (hvac_mode : HVACMode.t) : CM unit :=
  match hvac_mode with
  | HVACMode.HEAT_COOL => set_thermostat_mode ThermostatMode.AUTO
  | HVACMode.HEAT => set_thermostat_mode ThermostatMode.HEAT
  | HVACMode.COOL => set_thermostat_mode ThermostatMode.COOL
  | HVACMode.OFF => set_thermostat_mode ThermostatMode.OFF
  | _ => craise (ValueError (String.append "Attempted to set unsupported HVAC mode: "
                               (HVACMode.value hvac_mode)))
  end.

End Entity.

(** [m] assigns attributes of the entity only, and ends with [r]. *)
Definition attrs_step {A} (m : CM A) (r : result A) : Prop :=
  forall w, exists a, m w = Some (r, with_attrs w a).

(** [m] does not advance the clock. *)
Definition keeps_clock {A} (m : CM A) : Prop :=
  forall w r w', m w = Some (r, w') -> w_clock w' = w_clock w.


(** The fan block as this repository has it: [DaikinThermostat]
    (daikinone.py) declares no [fan], [fan_mode] or [fan_speed] field, so
    reading [self._thermostat.fan] raises [AttributeError]. *)
Definition fan_attr_repo : DaikinThermostat -> result pyval := fun _ => Err AttributeError.

(** The entities of [async_setup_entry] (climate.py): one
    [DaikinOneThermostat] per value of the dict, in the dict's order; each
    reads the attributes of its thermostat object. *)
Fixpoint entities_of (d : dict loc) : SM (list EntityInit) :=
  match d with
  | [] => mret []
  | (_, l) :: r =>
      fun s => match heap s !! l with
               | Some t => (let! es := entities_of r in mret (entity_init t :: es)) s
               | None => (Err AttributeError, s)
               end
  end.

(** [async_setup_entry] of the climate platform:
    [[DaikinOneThermostat(..., device) for device in data.daikin.get_thermostats().values()]]. *)
Definition climate_setup_entry : SM (list EntityInit) :=
  let! d := get_thermostats in
  entities_of d.

End Climate.

Module Fixtures.
Import Transport Decode Samples Store Climate.

(** A payload with an air handler (unit type 1), no furnace, an outdoor
    unit (unit type 10) with padded model and serial, and no EEV coil. *)
Definition sample1 := sample_device (sample_data 1 255 10 255 " DZ6VSA3610AA " "2001234567  " "C1").

(** A cache holding the thermostat decoded from [sample1]. *)
Definition store1 : Store :=
  snd (build_cache [sample1] [] {| cache := []; heap := ∅ |}).

(** [d] with [d[k] = v]. *)
Definition data_with (k : string) (v : pyval) (d : pyval) : pyval :=
  match d with PDict kv => PDict (dict_set k v kv) | _ => d end.

(** A device list entry as the API returns it, with the given data. *)
Definition device_json (data : pyval) : pyval :=
  PDict [("id", PStr "0a1b"); ("locationId", PStr "loc"); ("name", PStr "Main");
         ("model", PStr "ONEPLUS"); ("firmware", PStr "3.4.1"); ("online", PBool true);
         ("data", data)].

Definition device1 : pyval := device_json (dd_data sample1).

(** A backend whose device-data endpoint always lists one device with the
    given data; it accepts every write (and never applies it). *)
Definition backend_reporting (data : pyval) : list HttpCall -> HttpCall -> Response :=
  fun _ c => match c with
             | CallRequest m _ _ _ =>
                 if String.eqb m "GET" then {| status := 200; text := ""; json := PList [device_json data] |}
                 else {| status := 200; text := ""; json := PDict [] |}
             | _ => {| status := 200; text := "";
                       json := PDict [("refreshToken", PStr "r"); ("accessToken", PStr "a")] |}
             end.

Definition backend1 := backend_reporting (dd_data sample1).

(** A logged-in client with an empty cache. *)
Definition client0 : Client :=
  {| c_transport := {| creds_email := "e"; creds_password := "p";
                       auth := {| authenticated := true; refresh_token := PStr "r";
                                  access_token := PStr "a" |};
                       sent := [] |};
     c_store := {| cache := []; heap := ∅ |} |}.

(** A backend that answers every API request with 404 and every
    authentication call with tokens. *)
Definition backend_404 : list HttpCall -> HttpCall -> Response :=
  fun _ c => match c with
             | CallRequest _ _ _ _ => {| status := 404; text := "Not Found"; json := PNone |}
             | _ => {| status := 200; text := "";
                       json := PDict [("refreshToken", PStr "r"); ("accessToken", PStr "a")] |}
             end.

(** The entity of the device [backend_reporting data] lists, after the
    first refresh: its [_thermostat] is a copy of the cached object. *)
Definition world_at (data : pyval) : World :=
  let c1 := snd (refresh_thermostats (backend_reporting data) client0) in
  let '(r, c2) := on_store (get_thermostat "0a1b") c1 in
  {| w_client := c2; w_throttle := None; w_clock := 0%Q;
     w_thermostat := match r with Ok l => l | Err _ => 1%positive end;
     w_paused := false; w_attrs := []; w_published := [] |}.

(** The payload of [sample1] with the thermostat mode [m]. *)
Definition data_mode (m : Z) : pyval := data_with "mode" (PInt m) (dd_data sample1).

(** A fan block that completes, reading an automatic fan. *)
Definition fan_attr_auto : DaikinThermostat -> result pyval := fun _ => Ok FAN_AUTO.

End Fixtures.

(** * Properties *)

Module TransportFacts.
Import Transport.

Example req_ok_first_try :
  fst (req (fun _ _ => {| status := 200; text := ""; json := PInt 7 |}) "u" "GET" None true
         {| creds_email := "e"; creds_password := "p";
            auth := {| authenticated := true; refresh_token := PNone; access_token := PStr "a" |};
            sent := [] |}) = Ok (PInt 7).
Proof. reflexivity. Qed.

(** C1: against a backend that always answers 401, [__req] (called with
    its default [retry=True]) sends exactly two API requests, the original
    and one retry after the token refresh, and then fails with a
    [DaikinServiceException] carrying status 401 and the response body. *)
Theorem req_always_401_two_requests (txt url method : string) (body : option pyval)
    (s : TState) :
  let '(r, s') := req (always_401 txt) url method body true s in
  r = Err (ServiceError {| se_method := method; se_url := url; se_body := body;
                           se_status := 401; se_text := txt |})
  /\ requests_sent (sent s') = requests_sent (sent s) + 2.
Proof.
  destruct s as [e p [a rt at'] l].
  destruct a; cbn; split; try reflexivity; unfold requests_sent; cbn; lia.
Qed.

End TransportFacts.

Module DecodeFacts.
Import Decode Samples Fixtures.
Local Open Scope Z_scope.


Example sample1_equipment_ids :
  match map_thermostat sample1 with
  | Ok t => map fst (th_equipment t)
  | Err _ => []
  end = ["MBVC2000AA-1-1705123456"; "DZ6VSA3610AA-2001234567"].
Proof. vm_compute. reflexivity. Qed.

Lemma rbind_Ok {A B} (r : result A) (k : A -> result B) (x : B) :
  rbind r k = Ok x -> exists a, r = Ok a /\ k a = Ok x.
Proof. destruct r; cbn; [eauto | discriminate]. Qed.

(** Peel the successful binds off a decoding hypothesis. *)
Ltac unbind_in H :=
  repeat match type of H with
  | rbind ?r _ = Ok _ =>
      let E := fresh "E" in
      destruct r eqn:E; [cbn [rbind] in H | discriminate H]
  end.

(** C4: whatever the capability flags of the payload, a decoded
    thermostat's capability set is the full set {HEAT, COOL,
    EMERGENCY_HEAT}: the set starts from every member of the enum and the
    conditional additions add nothing. *)
Theorem map_thermostat_capabilities_full (p : DeviceDataResponse) (t : DaikinThermostat) :
  map_thermostat p = Ok t ->
  th_capabilities t = [Capability.HEAT; Capability.COOL; Capability.EMERGENCY_HEAT].
Proof.
  unfold map_thermostat; intros H; cbv zeta in H.
  unbind_in H. injection H as <-; cbn.
  repeat match goal with |- context [truthy ?v] => destruct (truthy v) end; reflexivity.
Qed.

Lemma in_dict_set {V} (k k' : string) (v v' : V) (d : dict V) :
  In (k, v) (dict_set k' v' d) -> (k, v) = (k', v') \/ In (k, v) d.
Proof.
  induction d as [|[k0 v0] r IH]; cbn.
  - intros [H|[]]; auto.
  - destruct (String.eqb k' k0); cbn.
    + intros [H|H]; auto.
    + intros [H|H]; auto. destruct (IH H); auto.
Qed.

Lemma in_add_entry (k : string) (v : DaikinEquipment) o d :
  In (k, v) (add_entry o d) -> o = Some (k, v) \/ In (k, v) d.
Proof.
  destruct o as [[k' v']|]; cbn; auto.
  intros H; apply in_dict_set in H as [H|H]; [left; congruence | auto].
Qed.

Lemma outdoor_entries_set_other k v d :
  is_outdoor v = false -> outdoor_entries d = [] -> outdoor_entries (dict_set k v d) = [].
Proof.
  intros Hv; induction d as [|[k0 v0] r IH]; cbn; [rewrite Hv; reflexivity|].
  destruct (is_outdoor v0) eqn:E0; [discriminate|]. intros Hr.
  destruct (String.eqb k k0); cbn; [rewrite Hv; exact Hr | rewrite E0; auto].
Qed.

Lemma outdoor_entries_set_outdoor k v d :
  is_outdoor v = true -> outdoor_entries d = [] -> outdoor_entries (dict_set k v d) = [(k, v)].
Proof.
  intros Hv; induction d as [|[k0 v0] r IH]; cbn; [rewrite Hv; reflexivity|].
  destruct (is_outdoor v0) eqn:E0; [discriminate|]. intros Hr.
  destruct (String.eqb k k0); cbn; [rewrite Hv, Hr; reflexivity | rewrite E0; auto].
Qed.

Lemma outdoor_entries_set_other_key k v d k1 v1 :
  is_outdoor v = false -> k <> k1 -> outdoor_entries d = [(k1, v1)] ->
  outdoor_entries (dict_set k v d) = [(k1, v1)].
Proof.
  intros Hv Hk; induction d as [|[k0 v0] r IH]; cbn; [discriminate|].
  destruct (is_outdoor v0) eqn:E0; intros Hr.
  - injection Hr as -> -> Hr.
    destruct (String.eqb_spec k k1); [contradiction|]. cbn. rewrite E0.
    pose proof (outdoor_entries_set_other k v r Hv Hr) as Hnil.
    unfold outdoor_entries in Hnil; rewrite Hnil. reflexivity.
  - destruct (String.eqb k k0); cbn; [rewrite Hv; exact Hr | rewrite E0; auto].
Qed.

Lemma branch_category (c : Category) p k e :
  branch c p = Ok (Some (k, e)) -> category_of e = c.
Proof.
  destruct c; cbn;
    [unfold map_air_handler | unfold map_furnace | unfold map_outdoor_unit | unfold map_eev_coil];
    intros H; cbv zeta in H; unbind_in H;
    repeat match type of H with
           | (if ?b then _ else _) = _ => destruct b
           end; unbind_in H; try discriminate;
    injection H as <- <-; reflexivity.
Qed.

Lemma branch_absent (c : Category) p v q :
  getitem (dd_data p) (unit_type_key c) = Ok v -> as_num v = Some q -> (255 <= q)%Q ->
  branch c p = Ok None.
Proof.
  intros Hv Hq Hle.
  assert (Hlt : lt v 255 = Ok false).
  { unfold lt, Qlt_bool. rewrite Hq. now rewrite (proj2 (Qle_bool_iff (inject_Z 255) q) Hle). }
  destruct c; cbn in *;
    [unfold map_air_handler | unfold map_furnace | unfold map_outdoor_unit | unfold map_eev_coil];
    cbv zeta; rewrite Hv; cbn [rbind]; rewrite Hlt; reflexivity.
Qed.

Lemma map_equipment_in p eq k e :
  map_equipment p = Ok eq -> In (k, e) eq -> exists c, branch c p = Ok (Some (k, e)).
Proof.
  unfold map_equipment; intros H; unbind_in H; injection H as <-; intros Hin.
  apply in_add_entry in Hin as [Hin|Hin]; [subst; exists Coil; exact E2|].
  apply in_add_entry in Hin as [Hin|Hin]; [subst; exists Outdoor; exact E1|].
  apply in_add_entry in Hin as [Hin|Hin]; [subst; exists Furnace; exact E0|].
  apply in_add_entry in Hin as [Hin|Hin]; [subst; exists AirHandler; exact E|].
  destruct Hin.
Qed.

Lemma map_outdoor_unit_some p o :
  map_outdoor_unit p = Ok o ->
  forall v q, getitem (dd_data p) "ctOutdoorUnitType" = Ok v -> as_num v = Some q -> (q < 255)%Q ->
  forall model serial,
  get_strip (dd_data p) "ctOutdoorModelNoCharacter1_15" = Ok model ->
  get_strip (dd_data p) "ctOutdoorSerialNoCharacter1_15" = Ok serial ->
  exists u, o = Some (synthetic_id model serial, u) /\ is_outdoor u = true.
Proof.
  intros H v q Hv Hq Hlt model serial Hm Hs.
  assert (Hlt' : lt v 255 = Ok true).
  { unfold lt, Qlt_bool. rewrite Hq. destruct (Qle_bool (inject_Z 255) q) eqn:E; [|reflexivity].
    apply Qle_bool_iff in E. exfalso. apply (Qlt_not_le _ _ Hlt E). }
  unfold map_outdoor_unit in H; cbv zeta in H.
  rewrite Hv in H; cbn [rbind] in H; rewrite Hlt' in H; cbn [negb] in H.
  rewrite Hm, Hs in H; cbn [rbind negb] in H.
  unbind_in H. injection H as <-. eexists; split; reflexivity.
Qed.

Lemma category_not_outdoor e : category_of e <> Outdoor -> is_outdoor e = false.
Proof. destruct e; cbn; [reflexivity| |reflexivity]. intros H; contradiction. Qed.

Lemma branch_not_outdoor (c : Category) p o :
  c <> Outdoor -> branch c p = Ok o -> forall k e, o = Some (k, e) -> is_outdoor e = false.
Proof.
  intros Hc Hb k e ->. apply category_not_outdoor.
  rewrite (branch_category c p k e Hb). exact Hc.
Qed.

Lemma add_entry_other o d :
  (forall k e, o = Some (k, e) -> is_outdoor e = false) ->
  outdoor_entries d = [] -> outdoor_entries (add_entry o d) = [].
Proof.
  destruct o as [[k e]|]; cbn; intros Ho Hd; [|exact Hd].
  apply outdoor_entries_set_other; [exact (Ho k e eq_refl) | exact Hd].
Qed.

(** C6 as the code has it: a category whose unit type is at least 255
    never contributes a record, and a present outdoor unit gives exactly
    one outdoor-unit entry keyed by its trimmed [{model}-{serial}], unless
    the EEV coil, decoded after it, has that same id and replaces it. *)
Theorem map_equipment_presence (p : DeviceDataResponse) (eq : dict DaikinEquipment)
    (Hdec : map_equipment p = Ok eq) :
  (forall (c : Category) v q,
     getitem (dd_data p) (unit_type_key c) = Ok v -> as_num v = Some q -> (255 <= q)%Q ->
     forall k e, In (k, e) eq -> category_of e <> c) /\
  (forall v q,
     getitem (dd_data p) "ctOutdoorUnitType" = Ok v -> as_num v = Some q -> (q < 255)%Q ->
     forall model serial,
     get_strip (dd_data p) "ctOutdoorModelNoCharacter1_15" = Ok model ->
     get_strip (dd_data p) "ctOutdoorSerialNoCharacter1_15" = Ok serial ->
     (forall e, map_eev_coil p = Ok (Some e) -> fst e <> synthetic_id model serial) ->
     exists u, outdoor_entries eq = [(synthetic_id model serial, u)] /\ is_outdoor u = true).
Proof.
  split.
  - intros c v q Hv Hq Hle k e Hin Hcat.
    destruct (map_equipment_in p eq k e Hdec Hin) as [c' Hb].
    pose proof (branch_category c' p k e Hb) as Hc'.
    rewrite Hcat in Hc'; subst c'.
    rewrite (branch_absent c p v q Hv Hq Hle) in Hb. discriminate.
  - intros v q Hv Hq Hlt model serial Hm Hs Hcoil.
    unfold map_equipment in Hdec; unbind_in Hdec; injection Hdec as <-.
    destruct (map_outdoor_unit_some p a1 E1 v q Hv Hq Hlt model serial Hm Hs) as (u & -> & Hu).
    exists u; split; [|exact Hu].
    assert (H0 : outdoor_entries (add_entry a0 (add_entry a [])) = []).
    { apply add_entry_other; [apply (branch_not_outdoor Furnace p); [discriminate|exact E0]|].
      apply add_entry_other; [apply (branch_not_outdoor AirHandler p); [discriminate|exact E]|].
      reflexivity. }
    pose proof (outdoor_entries_set_outdoor (synthetic_id model serial) u _ Hu H0) as H1.
    destruct a2 as [[kc ec]|]; cbn [add_entry]; [|exact H1].
    apply outdoor_entries_set_other_key; [| |exact H1].
    + exact (branch_not_outdoor Coil p _ ltac:(discriminate) E2 kc ec eq_refl).
    + exact (Hcoil (kc, ec) eq_refl).
Qed.

(** C6 witness: the theorem applied to a decoded payload with an air
    handler and an outdoor unit. *)
Lemma map_equipment_presence_witness :
  exists eq, map_equipment sample1 = Ok eq /\
  (forall (c : Category) v q,
     getitem (dd_data sample1) (unit_type_key c) = Ok v -> as_num v = Some q -> (255 <= q)%Q ->
     forall k e, In (k, e) eq -> category_of e <> c) /\
  (forall v q,
     getitem (dd_data sample1) "ctOutdoorUnitType" = Ok v -> as_num v = Some q -> (q < 255)%Q ->
     forall model serial,
     get_strip (dd_data sample1) "ctOutdoorModelNoCharacter1_15" = Ok model ->
     get_strip (dd_data sample1) "ctOutdoorSerialNoCharacter1_15" = Ok serial ->
     (forall e, map_eev_coil sample1 = Ok (Some e) -> fst e <> synthetic_id model serial) ->
     exists u, outdoor_entries eq = [(synthetic_id model serial, u)] /\ is_outdoor u = true).
Proof.
  eexists. split; [vm_compute; reflexivity|].
  apply (map_equipment_presence sample1). vm_compute. reflexivity.
Defined.

(** C6 counterexample: an outdoor unit with unit type 10 and well-formed
    fields whose id [eevcoil-X1] equals the id of the EEV coil: the coil
    entry replaces it and the map has no outdoor-unit entry. *)
Lemma map_equipment_outdoor_replaced_by_coil :
  let p := sample_device (sample_data 1 255 10 10 "eevcoil " " X1" "X1") in
  getitem (dd_data p) "ctOutdoorUnitType" = Ok (PInt 10) /\
  exists eq, map_equipment p = Ok eq /\ outdoor_entries eq = [].
Proof.
  split; [reflexivity|]. eexists. split; [vm_compute; reflexivity | vm_compute; reflexivity].
Qed.

Lemma round_half_even_int (r : Q) (n : Z) :
  (r == inject_Z n)%Q -> round_half_even r = n.
Proof.
  intros H. unfold round_half_even.
  assert (Hfl : Qnum r / Zpos (Qden r) = n).
  { unfold Qeq in H; cbn in H. rewrite Z.mul_1_r in H. rewrite H. apply Z.div_mul. lia. }
  rewrite Hfl.
  assert (H0 : (r - inject_Z n == 0)%Q) by (rewrite H; ring).
  unfold Qlt_bool.
  destruct (Qle_bool (1 # 2) (r - inject_Z n)) eqn:E; [|reflexivity].
  apply Qle_bool_iff in E. rewrite H0 in E. vm_compute in E. exfalso; now apply E.
Qed.

(** Rounding to one decimal keeps an integral value. *)
Lemma round1_int (x : Q) (z : Z) : (x == inject_Z z)%Q -> (round1 x == inject_Z z)%Q.
Proof.
  intros H. unfold round1. rewrite Qred_correct.
  rewrite (round_half_even_int (x * 10) (z * 10)).
  - rewrite inject_Z_mult. field.
  - rewrite H, inject_Z_mult. reflexivity.
Qed.

Lemma pyd_int_float (x : Q) (z : Z) : pyd_int (PFloat x) = Ok z -> (x == inject_Z z)%Q.
Proof.
  unfold pyd_int. destruct (Pos.eqb (Qden (Qred x)) 1%positive) eqn:E; [|discriminate].
  intros Hz; injection Hz as <-.
  apply Pos.eqb_eq in E.
  transitivity (Qred x); [symmetry; apply Qred_correct|].
  unfold Qeq, inject_Z; cbn. rewrite E. lia.
Qed.

Lemma halved_of_div d k w z : get_div d k 2 = Ok w -> pyd_int w = Ok z -> halved d k z.
Proof.
  unfold get_div. destruct (getitem d k) as [v|] eqn:Ev; cbn; [|discriminate].
  unfold truediv. destruct (as_num v) as [q|] eqn:Eq; [|discriminate].
  intros Hw; injection Hw as <-. intros Hz.
  exists v, q. split; [exact Ev|]. split; [exact Eq|].
  symmetry. apply round1_int. exact (pyd_int_float _ _ Hz).
Qed.

Lemma get_div_float d k n w : get_div d k n = Ok w -> exists x, w = PFloat x.
Proof.
  unfold get_div. destruct (getitem d k) as [v|]; cbn; [|discriminate].
  unfold truediv. destruct (as_num v); [|discriminate]. intros Hw; injection Hw as <-. eauto.
Qed.

Lemma halved_opt_of_div d k w oz : get_div d k 2 = Ok w -> pyd_opt_int w = Ok oz -> halved_opt d k oz.
Proof.
  intros Hw Hz. destruct (get_div_float _ _ _ _ Hw) as [x ->].
  cbn [pyd_opt_int] in Hz. destruct (pyd_int (PFloat x)) as [z|] eqn:Ez; cbn in Hz; [|discriminate].
  injection Hz as <-. exists z. split; [reflexivity|].
  exact (halved_of_div _ _ _ _ Hw Ez).
Qed.

Lemma halved_of_half_round d k w z : get_half_round d k = Ok w -> pyd_int w = Ok z -> halved d k z.
Proof.
  unfold get_half_round, get_div. destruct (getitem d k) as [v|] eqn:Ev; cbn; [|discriminate].
  unfold truediv. destruct (as_num v) as [q|] eqn:Eq; cbn; [|discriminate].
  intros Hw; injection Hw as <-. intros Hz.
  exists v, q. split; [exact Ev|]. split; [exact Eq|].
  symmetry. exact (pyd_int_float _ _ Hz).
Qed.


(** Close one scaled field against the hypotheses of a decoding. *)
Ltac scaled_field :=
  first [ eapply halved_of_div; eassumption
        | eapply halved_opt_of_div; eassumption
        | eapply halved_of_half_round; eassumption ].

Lemma branch_demand_fields_scaled (c : Category) p k e :
  branch c p = Ok (Some (k, e)) -> demand_fields_scaled (dd_data p) e.
Proof.
  destruct c; cbn [branch];
    [unfold map_air_handler | unfold map_furnace | unfold map_outdoor_unit | unfold map_eev_coil];
    intros H; cbv zeta in H; unbind_in H;
    repeat match type of H with
           | (if ?b then _ else _) = _ => destruct b
           end; unbind_in H; try discriminate;
    injection H as <- <-; cbn -[halved halved_opt];
    repeat match goal with |- _ /\ _ => split end; try exact I; scaled_field.
Qed.

(** C10: in every decoded equipment map, each demand-percentage field of
    an air handler, a furnace or an outdoor unit is its raw payload field
    divided by 2 and rounded to one decimal. *)
Theorem map_equipment_demand_scaled (p : DeviceDataResponse) (eq : dict DaikinEquipment)
    (Hdec : map_equipment p = Ok eq) :
  forall k e, In (k, e) eq -> demand_fields_scaled (dd_data p) e.
Proof.
  intros k e Hin. destruct (map_equipment_in p eq k e Hdec Hin) as [c Hc].
  exact (branch_demand_fields_scaled c p k e Hc).
Qed.

(** C10 witness: the payload [sample1], with an air handler and an
    outdoor unit. *)
Lemma map_equipment_demand_scaled_witness :
  exists eq, map_equipment sample1 = Ok eq /\
  forall k e, In (k, e) eq -> demand_fields_scaled (dd_data sample1) e.
Proof.
  eexists. split; [vm_compute; reflexivity|].
  apply (map_equipment_demand_scaled sample1). vm_compute. reflexivity.
Defined.

(** C4 witness: the payload [sample1], whose emergency-heat flag is off. *)
Lemma map_thermostat_capabilities_full_witness :
  exists t, map_thermostat sample1 = Ok t /\
  th_capabilities t = [Capability.HEAT; Capability.COOL; Capability.EMERGENCY_HEAT].
Proof.
  eexists. split; [vm_compute; reflexivity|].
  apply (map_thermostat_capabilities_full sample1). vm_compute. reflexivity.
Defined.

End DecodeFacts.

Module TemperatureFacts.
Import Decode DecodeFacts.

(** [round(x, 1)] is idempotent. *)
Lemma round1_idem (x : Q) : round1 (round1 x) = round1 x.
Proof.
  unfold round1 at 1.
  rewrite (round_half_even_int (round1 x * 10) (round_half_even (x * 10))); [reflexivity|].
  unfold round1. rewrite Qred_correct. field.
Qed.

(** C9, with floats read as their exact values: the Celsius reading of
    [from_celsius c] is [round(c, 1)], that of [from_fahrenheit f] is
    [round((f - 32) * 5 / 9, 1)], and two temperatures built by these
    constructors are [==] exactly when their rounded Celsius values are
    equal. *)
Theorem temperature_rounding :
  (forall c, exists t, from_celsius (PFloat c) = Ok t /\ celsius t = round1 c) /\
  (forall f, exists t, from_fahrenheit (PFloat f) = Ok t /\
                       celsius t = round1 ((f - 32) * 5 / 9)) /\
  (forall c1 c2, temp_eqb (temp_init c1) (temp_init c2) = true <->
                 (round1 (temp_c (temp_init c1)) == round1 (temp_c (temp_init c2)))%Q).
Proof.
  split; [|split].
  - intros c. exists (temp_init c). split; [reflexivity|]. apply round1_idem.
  - intros f. exists (temp_init ((f - 32) * 5 / 9)). split; [reflexivity|]. apply round1_idem.
  - intros c1 c2. unfold temp_eqb; cbn [temp_init temp_c].
    rewrite !round1_idem. apply Qeq_bool_iff.
Qed.

End TemperatureFacts.

Module StoreFacts.
Import Decode Samples Store Fixtures.

Lemma dict_get_in {V} (k : string) (v : V) (d : dict V) : dict_get k d = Some v -> In (k, v) d.
Proof.
  induction d as [|[k' v'] r IH]; cbn; [discriminate|].
  destruct (String.eqb k' k) eqn:E; [apply String.eqb_eq in E; subst; intros [= ->]; now left|].
  intros H; right; exact (IH H).
Qed.

Lemma dict_get_set {V} (k k' : string) (v : V) (d : dict V) :
  dict_get k (dict_set k' v d) = if String.eqb k' k then Some v else dict_get k d.
Proof.
  induction d as [|[k1 v1] r IH]; cbn.
  - reflexivity.
  - destruct (String.eqb k' k1) eqn:E1; cbn.
    + apply String.eqb_eq in E1; subst k1. now destruct (String.eqb k' k).
    + destruct (String.eqb k1 k) eqn:E2; [|exact IH].
      apply String.eqb_eq in E2; subst k1. now rewrite E1.
Qed.

Lemma live_cache_in s k l : live_cache s = true -> In (k, l) (cache s) -> is_Some (heap s !! l).
Proof.
  unfold live_cache. intros H Hin. rewrite forallb_forall in H.
  specialize (H (k, l) Hin). apply bool_decide_eq_true in H. cbn in H.
  now apply elem_of_dom.
Qed.

Lemma fresh_none s : heap s !! fresh (dom (heap s)) = None.
Proof. apply not_elem_of_dom. apply is_fresh. Qed.

(** [deepcopy_dict] keeps the cache and every existing object, and every
    object it returns is new. *)
Lemma deepcopy_dict_new d : forall s d' s', deepcopy_dict d s = (Ok d', s') ->
  cache s' = cache s /\ heap s ⊆ heap s' /\ forall k l, In (k, l) d' -> heap s !! l = None.
Proof.
  induction d as [|[k l] r IH]; intros s d' s' H; cbn in H.
  - injection H as <- <-. split; [reflexivity|]. split; [reflexivity|]. intros ? ? [].
  - unfold mbind, deepcopy, alloc in H.
    destruct (heap s !! l) as [v|] eqn:Ev; [|discriminate].
    set (l' := fresh (dom (heap s))) in H.
    destruct (deepcopy_dict r {| cache := cache s; heap := <[l' := v]> (heap s) |})
      as [[r'|e] s1] eqn:Er; [|discriminate].
    unfold mret in H. injection H as <- <-.
    destruct (IH _ _ _ Er) as (Hc & Hsub & Hnew); cbn in Hc, Hsub, Hnew.
    assert (Hl' : heap s !! l' = None) by apply fresh_none.
    assert (Hs1 : heap s ⊆ <[l' := v]> (heap s)) by (apply insert_subseteq; exact Hl').
    split; [exact Hc|]. split; [etransitivity; eassumption|].
    intros k0 l0 [Heq|Hin]; [injection Heq as <- <-; exact Hl'|].
    specialize (Hnew k0 l0 Hin).
    destruct (heap s !! l0) as [w|] eqn:Ew; [|reflexivity].
    rewrite (lookup_weaken _ _ _ _ Ew Hs1) in Hnew. discriminate.
Qed.

(** An attribute assignment touches its own object only. *)
Lemma set_obj_frame l f s r s' : set_obj l f s = (r, s') ->
  cache s' = cache s /\ forall l', l' <> l -> heap s' !! l' = heap s !! l'.
Proof.
  unfold set_obj. destruct (heap s !! l); intros [= <- <-]; cbn; (split; [reflexivity|]).
  - intros l' Hne. apply lookup_insert_ne. congruence.
  - reflexivity.
Qed.

Lemma not_in_cache s l : live_cache s = true -> heap s !! l = None -> ~ In l (map snd (cache s)).
Proof.
  intros Hlive Hl Hin. apply in_map_iff in Hin as [[k l'] [Heq Hin]]; cbn in Heq; subst l'.
  destruct (live_cache_in s k l Hlive Hin) as [v Hv]. congruence.
Qed.

(** C5: on a cache whose entries are live objects, [get_thermostat] and
    [get_thermostats] return new objects, never an object of the cache.
    The object [get_thermostat id] returns holds the cached contents, and
    after the caller mutates it a second [get_thermostat id] still returns
    those contents; mutating an object [get_thermostats] returned leaves
    every cached value unchanged. *)
Theorem thermostat_copies_isolated (s : Store) (Hlive : live_cache s = true) :
  (forall id l1 s1, get_thermostat id s = (Ok l1, s1) ->
     ~ In l1 (map snd (cache s)) /\ heap s1 !! l1 = cached_value s id /\
     forall f, exists l2 s3,
       get_thermostat id (snd (set_obj l1 f s1)) = (Ok l2, s3) /\ heap s3 !! l2 = heap s1 !! l1) /\
  (forall d s1, get_thermostats s = (Ok d, s1) ->
     forall k l, In (k, l) d ->
     ~ In l (map snd (cache s)) /\
     forall f id, cached_value (snd (set_obj l f s1)) id = cached_value s id).
Proof.
  split.
  - intros id l1 s1 H. unfold get_thermostat in H.
    destruct (dict_get id (cache s)) as [lc|] eqn:Elc; [|discriminate].
    unfold deepcopy, alloc in H. destruct (heap s !! lc) as [v|] eqn:Ev; [|discriminate].
    injection H as <- <-. cbn.
    pose proof (fresh_none s) as Hfr.
    assert (Hne : lc <> fresh (dom (heap s))) by congruence.
    split; [exact (not_in_cache s _ Hlive Hfr)|].
    split; [unfold cached_value; rewrite Elc; simplify_map_eq; reflexivity|].
    intros f. unfold set_obj; cbn. simplify_map_eq. cbn.
    unfold get_thermostat; cbn. rewrite Elc. unfold deepcopy; cbn.
    rewrite lookup_insert_ne by congruence. rewrite lookup_insert_ne by congruence. rewrite Ev.
    unfold alloc. do 2 eexists. split; [reflexivity|]. cbn. now simplify_map_eq.
  - intros d s1 H k l Hin. unfold get_thermostats in H.
    destruct (deepcopy_dict_new _ _ _ _ H) as (Hc & Hsub & Hnew).
    specialize (Hnew k l Hin).
    split; [exact (not_in_cache s _ Hlive Hnew)|].
    intros f id. destruct (set_obj l f s1) as [r s2] eqn:Es; cbn.
    destruct (set_obj_frame _ _ _ _ _ Es) as [Hc2 Hfr2].
    unfold cached_value. rewrite Hc2, Hc.
    destruct (dict_get id (cache s)) as [lc|] eqn:Elc; [|reflexivity].
    destruct (live_cache_in s id lc Hlive (dict_get_in _ _ _ Elc)) as [v Hv].
    rewrite Hfr2 by congruence. rewrite Hv. exact (lookup_weaken _ _ _ _ Hv Hsub).
Qed.

(** C5 witness: the cache [store1]. *)
Lemma thermostat_copies_isolated_witness :
  live_cache store1 = true /\
  (forall id l1 s1, get_thermostat id store1 = (Ok l1, s1) ->
     ~ In l1 (map snd (cache store1)) /\ heap s1 !! l1 = cached_value store1 id /\
     forall f, exists l2 s3,
       get_thermostat id (snd (set_obj l1 f s1)) = (Ok l2, s3) /\ heap s3 !! l2 = heap s1 !! l1) /\
  (forall d s1, get_thermostats store1 = (Ok d, s1) ->
     forall k l, In (k, l) d ->
     ~ In l (map snd (cache store1)) /\
     forall f id, cached_value (snd (set_obj l f s1)) id = cached_value store1 id).
Proof.
  split; [vm_compute; reflexivity|].
  apply (thermostat_copies_isolated store1). vm_compute. reflexivity.
Defined.

(** [build_cache] never writes the cache and keeps every existing object. *)
Lemma build_cache_frame ps : forall acc s r s', build_cache ps acc s = (r, s') ->
  cache s' = cache s /\ heap s ⊆ heap s'.
Proof.
  induction ps as [|p ps IH]; intros acc s r s' H; cbn in H.
  - injection H as _ <-. split; reflexivity.
  - unfold mbind, mlift in H. destruct (map_thermostat p) as [t|e]; [|injection H as _ <-; split; reflexivity].
    unfold alloc in H.
    destruct (IH _ _ _ _ H) as [Hc Hsub]; cbn in Hc, Hsub.
    split; [exact Hc|]. etransitivity; [|exact Hsub]. apply insert_subseteq. apply fresh_none.
Qed.

(** A successful [build_cache] decoded every record, and the dict it built
    maps each id to a new object holding the decoded record of that id. *)
Lemma build_cache_ok ps : forall acc s d s' done,
  build_cache ps acc s = (Ok d, s') ->
  (forall id l, dict_get id acc = Some l -> exists p t,
     In p done /\ dd_id p = id /\ map_thermostat p = Ok t /\ heap s !! l = Some t) ->
  (forall p, In p done -> dict_get (dd_id p) acc <> None) ->
  (forall id l, dict_get id d = Some l -> exists p t,
     In p (done ++ ps) /\ dd_id p = id /\ map_thermostat p = Ok t /\ heap s' !! l = Some t) /\
  (forall p, In p (done ++ ps) -> dict_get (dd_id p) d <> None) /\
  Forall (fun p => exists t, map_thermostat p = Ok t) ps.
Proof.
  induction ps as [|p ps IH]; intros acc s d s' done H Hinv1 Hinv2; cbn in H.
  - injection H as <- <-. rewrite app_nil_r. split; [exact Hinv1|]. split; [exact Hinv2|]. constructor.
  - unfold mbind, mlift in H. destruct (map_thermostat p) as [t|e] eqn:Et; [|discriminate].
    unfold alloc in H.
    set (l := fresh (dom (heap s))) in H.
    assert (Hsub : heap s ⊆ <[l := t]> (heap s)) by (apply insert_subseteq; apply fresh_none).
    destruct (IH _ _ _ _ (done ++ [p]) H) as (H1 & H2 & H3); cbn.
    + intros id l0 Hget. rewrite dict_get_set in Hget.
      destruct (String.eqb (dd_id p) id) eqn:Eid.
      * injection Hget as <-. apply String.eqb_eq in Eid.
        exists p, t. split; [apply in_or_app; right; now left|].
        split; [exact Eid|]. split; [exact Et|]. now simplify_map_eq.
      * destruct (Hinv1 id l0 Hget) as (p0 & t0 & Hin & Hid & Ht0 & Hl0).
        exists p0, t0. split; [apply in_or_app; now left|].
        split; [exact Hid|]. split; [exact Ht0|]. exact (lookup_weaken _ _ _ _ Hl0 Hsub).
    + intros p0 Hin. rewrite dict_get_set.
      destruct (String.eqb (dd_id p) (dd_id p0)) eqn:Eq; [discriminate|].
      apply in_app_or in Hin as [Hin|[<-|[]]]; [exact (Hinv2 p0 Hin)|].
      rewrite String.eqb_refl in Eq. discriminate Eq.
    + rewrite <- app_assoc in H1, H2. split; [exact H1|]. split; [exact H2|].
      constructor; [exists t; exact Et | exact H3].
Qed.

(** C8: [__refresh_thermostats] assigns the cache once, after every
    record of the response was validated and decoded. If the fetch, the
    validation or a decoding raises, the cache is the same dict and every
    object it held is unchanged. On success every record was decoded, and
    the new cache holds exactly the decoded records of the response, by
    id. *)
Theorem refresh_thermostats_atomic
    (backend : list Transport.HttpCall -> Transport.HttpCall -> Transport.Response)
    (c : Client) (r : result unit) (c' : Client)
    (H : refresh_thermostats backend c = (r, c')) :
  (forall e, r = Err e ->
     cache (c_store c') = cache (c_store c) /\ heap (c_store c) ⊆ heap (c_store c')) /\
  (r = Ok tt -> exists devices items ps,
     fst (Transport.req backend DAIKIN_API_URL_DEVICE_DATA "GET" None true (c_transport c))
       = Ok devices /\
     py_iter devices = Ok items /\ validate_all items = Ok ps /\
     Forall (fun p => exists t, map_thermostat p = Ok t) ps /\
     (forall id t, cached_value (c_store c') id = Some t ->
        exists p, In p ps /\ dd_id p = id /\ map_thermostat p = Ok t) /\
     (forall p, In p ps -> cached_value (c_store c') (dd_id p) <> None)).
Proof.
  unfold refresh_thermostats, mbind, on_transport, mlift, on_store in H.
  destruct (Transport.req backend DAIKIN_API_URL_DEVICE_DATA "GET" None true (c_transport c))
    as [[devices|e] t1] eqn:Ereq;
    [|injection H as <- <-; split; [intros; split; reflexivity | discriminate]].
  cbn in H. destruct (py_iter devices) as [items|e] eqn:Eit;
    [|injection H as <- <-; split; [intros; split; reflexivity | discriminate]].
  destruct (validate_all items) as [ps|e] eqn:Eps;
    [|injection H as <- <-; split; [intros; split; reflexivity | discriminate]].
  destruct (build_cache ps [] (c_store c)) as [[d|e] s1] eqn:Eb.
  - unfold set_cache in H. injection H as <- <-. cbn.
    split; [discriminate|]. intros _.
    destruct (build_cache_ok ps [] (c_store c) d s1 [] Eb) as (H1 & H2 & H3);
      [intros ? ? [=] | intros ? []|].
    exists devices, items, ps. split; [reflexivity|]. split; [exact Eit|]. split; [exact Eps|].
    split; [exact H3|]. unfold cached_value; cbn. split.
    + intros id t Hc. destruct (dict_get id d) as [l|] eqn:Ed; [|discriminate].
      destruct (H1 id l Ed) as (p & t' & Hin & Hid & Ht & Hl). rewrite Hl in Hc. injection Hc as ->.
      exists p. auto.
    + intros p Hin. destruct (dict_get (dd_id p) d) as [l|] eqn:Ed; [|destruct (H2 p Hin Ed)].
      destruct (H1 _ l Ed) as (p' & t' & _ & _ & _ & Hl). rewrite Hl. discriminate.
  - injection H as <- <-. cbn. split; [|discriminate]. intros _ _.
    exact (build_cache_frame _ _ _ _ _ Eb).
Qed.

(** C8 witness: a refresh of [client0] against [backend1]. *)
Lemma refresh_thermostats_atomic_witness :
  let r := fst (refresh_thermostats backend1 client0) in
  let c' := snd (refresh_thermostats backend1 client0) in
  (forall e, r = Err e ->
     cache (c_store c') = cache (c_store client0) /\ heap (c_store client0) ⊆ heap (c_store c')) /\
  (r = Ok tt -> exists devices items ps,
     fst (Transport.req backend1 DAIKIN_API_URL_DEVICE_DATA "GET" None true (c_transport client0))
       = Ok devices /\
     py_iter devices = Ok items /\ validate_all items = Ok ps /\
     Forall (fun p => exists t, map_thermostat p = Ok t) ps /\
     (forall id t, cached_value (c_store c') id = Some t ->
        exists p, In p ps /\ dd_id p = id /\ map_thermostat p = Ok t) /\
     (forall p, In p ps -> cached_value (c_store c') (dd_id p) <> None)).
Proof.
  intros r c'. apply (refresh_thermostats_atomic backend1 client0 r c').
  vm_compute. reflexivity.
Defined.

End StoreFacts.

Module ClimateFacts.
Import Py Transport Decode Store Climate Fixtures.
Local Open Scope climate_scope.












Section Paused.
Variable backend : list HttpCall -> HttpCall -> Response.
Variable fan_attr : DaikinThermostat -> result pyval.
Variable jitter : nat -> Q.
Variable poll : nat -> bool.
Variable attempt_time : nat -> Q.
Variable fuel : nat.








End Paused.

(** With the pause flag clear, [async_update] refreshes: it runs the
    throttled update of the shared data and reloads [self._thermostat]. *)
Lemma async_update_unpaused backend fan_attr b w :
  w_paused w = false ->
  async_update backend fan_attr b w =
    (let* _ := data_update backend b in
     let* t := this_thermostat in
     let* l := on_daikin (on_store (get_thermostat (th_id t))) in
     let* _ := cmodify (fun w => with_thermostat w l) in
     update_entity_attributes fan_attr) w.
Proof. intros Hp. unfold async_update, cbind at 1, cget. rewrite Hp. reflexivity. Qed.

(** The published [hvac_mode] values, most recent first. *)
Definition published_modes (w : World) : list (option pyval) :=
  map (dict_get "_attr_hvac_mode") (w_published w).

(** The defect of [update_state_optimistically] that the fan block of this
    repository hides: were [update_entity_attributes] to complete (as with
    [fan_attr_auto]), the entity's pause flag would stay clear during the
    confirmation loop. The backend keeps reporting mode OFF after
    [set_thermostat_mode(HEAT)]; Home Assistant's poll runs during the
    first sleep of the loop, refreshes the entity and publishes the stale
    [off] after the optimistic [heat]. *)
Lemma stale_poll_with_completed_fan_block :
  let w0 := world_at (data_mode 0) in
  exists w',
    set_thermostat_mode (backend_reporting (data_mode 0)) fan_attr_auto
      (fun _ => 1%Q) (fun n => Nat.eqb n 1) (fun _ => 1%Q) 20 ThermostatMode.HEAT w0 = Some (Ok tt, w') /\
    w_paused w' = false /\
    published_modes w' = [Some (PStr "off"); Some (PStr "off"); Some (PStr "heat")].
Proof. eexists. split; [vm_compute; reflexivity | split; vm_compute; reflexivity]. Qed.


Lemma with_attrs_eta w : with_attrs w (w_attrs w) = w.
Proof. destruct w; reflexivity. Qed.

Lemma attrs_bind {A B} (m : CM A) (k : A -> CM B) x r :
  attrs_step m (Ok x) -> attrs_step (k x) r -> attrs_step (cbind m k) r.
Proof.
  intros Hm Hk w. destruct (Hm w) as [a1 E1]. destruct (Hk (with_attrs w a1)) as [a2 E2].
  exists a2. unfold cbind. rewrite E1. exact E2.
Qed.

Lemma attrs_bind_err {A B} (m : CM A) (k : A -> CM B) e :
  attrs_step m (Err e) -> attrs_step (cbind m k) (Err e).
Proof. intros Hm w. destruct (Hm w) as [a1 E1]. exists a1. unfold cbind. rewrite E1. reflexivity. Qed.

Lemma attrs_set_attr k v : attrs_step (set_attr k v) (Ok tt).
Proof. intros w. eexists. reflexivity. Qed.

Lemma attrs_cret {A} (x : A) : attrs_step (cret x) (Ok x).
Proof. intros w. exists (w_attrs w). rewrite with_attrs_eta. reflexivity. Qed.

Lemma attrs_clift {A} (x : result A) : attrs_step (clift x) x.
Proof. intros w. exists (w_attrs w). rewrite with_attrs_eta. reflexivity. Qed.

Ltac attrs :=
  repeat match goal with
  | |- attrs_step (cbind (set_attr _ _) _) _ => eapply attrs_bind; [apply attrs_set_attr|]
  | |- attrs_step (cbind (cret _) _) _ => eapply attrs_bind; [apply attrs_cret|]
  | |- attrs_step (cbind (clift (Err _)) _) _ => apply attrs_bind_err, attrs_clift
  | |- attrs_step (cbind (clift (fan_attr_repo _)) _) _ => apply attrs_bind_err, attrs_clift
  | |- attrs_step (cbind (match ?x with _ => _ end) _) _ => destruct x
  | |- attrs_step (cbind (cbind _ _) _) _ => eapply attrs_bind; [eapply attrs_bind; [apply attrs_set_attr|]|]
  | |- attrs_step (clift _) _ => apply attrs_clift
  | |- attrs_step (set_attr _ _) _ => apply attrs_set_attr
  end.

(** With the fan block of this repository, [update_entity_attributes]
    assigns the attributes up to [_attr_fan_mode] and then raises. *)
Lemma update_entity_attributes_repo (w : World) (t : DaikinThermostat)
  (Ht : heap (c_store (w_client w)) !! w_thermostat w = Some t) :
  exists a, update_entity_attributes fan_attr_repo w = Some (Err AttributeError, with_attrs w a).
Proof.
  unfold update_entity_attributes. unfold cbind at 1. unfold this_thermostat at 1, obj at 1.
  rewrite Ht. cbv beta iota.
  match goal with |- exists a, ?m w = _ => cut (attrs_step m (Err AttributeError)); [intros H; apply H|] end.
  attrs.
Qed.



(** C3: in this repository every optimistic write raises: the optimistic
    mutation of [self._thermostat] is followed by [update_entity_attributes],
    whose fan block reads [self._thermostat.fan], a field [DaikinThermostat]
    does not have. The operation raises [AttributeError] before publishing,
    before the confirmation loop (no time passes, no update of the data)
    and before the final no-throttle refresh; it sends no request. *)
Theorem optimistic_write_raises_before_confirmation
    (backend : list HttpCall -> HttpCall -> Response) (jitter : nat -> Q) (poll : nat -> bool)
    (attempt_time : nat -> Q) (fuel : nat) (update : DaikinThermostat -> DaikinThermostat) (check : DaikinThermostat -> bool)
    (w : World) (t : DaikinThermostat)
    (Ht : heap (c_store (w_client w)) !! w_thermostat w = Some t) :
  exists w',
    update_state_optimistically backend fan_attr_repo jitter poll attempt_time fuel update check w
      = Some (Err AttributeError, w') /\
    c_transport (w_client w') = c_transport (w_client w) /\
    w_clock w' = w_clock w /\ w_throttle w' = w_throttle w /\
    w_published w' = w_published w.
Proof.
  unfold update_state_optimistically. unfold cbind at 1 2. unfold cget at 1.
  unfold on_daikin at 1, on_store at 1, set_obj at 1.
  rewrite Ht. cbv beta iota zeta delta [cbind].
  match goal with |- context [update_entity_attributes fan_attr_repo ?w1] =>
    destruct (update_entity_attributes_repo w1 (update t)) as [a Ea] end.
  { cbn. apply lookup_insert_eq. }
  rewrite Ea. eexists. repeat split.
Qed.

Lemma optimistic_write_raises_before_confirmation_witness :
  let w0 := world_at (data_mode 0) in
  match heap (c_store (w_client w0)) !! w_thermostat w0 with
  | Some t =>
      exists w',
        update_state_optimistically (backend_reporting (data_mode 0)) fan_attr_repo
          (fun _ => 1%Q) (fun n => Nat.eqb n 1) (fun _ => 1%Q) 20 (set_mode ThermostatMode.HEAT)
          (fun t => ThermostatMode.eqb (th_mode t) ThermostatMode.HEAT) w0
          = Some (Err AttributeError, w') /\
        c_transport (w_client w') = c_transport (w_client w0) /\
        w_clock w' = w_clock w0 /\ w_throttle w' = w_throttle w0 /\
        w_published w' = w_published w0
  | None => False
  end.
Proof.
  intros w0. destruct (heap (c_store (w_client w0)) !! w_thermostat w0) as [t|] eqn:E.
  - exact (optimistic_write_raises_before_confirmation _ _ _ _ _ _ _ w0 t E).
  - vm_compute in E. discriminate E.
Defined.

(** C3, the run the claim describes: [set_thermostat_mode(HEAT)] against a
    backend that never reflects the new mode ends in [AttributeError]
    with nothing published, no time spent confirming and no refresh after
    the mode request. *)
Lemma set_mode_raises_attribute_error :
  let w0 := world_at (data_mode 0) in
  exists w',
    set_thermostat_mode (backend_reporting (data_mode 0)) fan_attr_repo
      (fun _ => 1%Q) (fun n => Nat.eqb n 1) (fun _ => 1%Q) 20 ThermostatMode.HEAT w0 = Some (Err AttributeError, w') /\
    published_modes w' = [] /\ w_clock w' = w_clock w0 /\
    length (Transport.sent (c_transport (w_client w'))) =
      S (length (Transport.sent (c_transport (w_client w0)))).
Proof. eexists. split; [vm_compute; reflexivity | split; [|split]; vm_compute; reflexivity]. Qed.

(** C7: invalid writes raise [ValueError] before any request. A
    single-temperature [async_set_temperature] (neither [target_temp_low]
    nor [target_temp_high] truthy) on a thermostat in mode AUTO or OFF
    raises and leaves the world unchanged, the transport included; and
    [set_thermostat_home_set_points] with neither set point raises and
    leaves the client unchanged. *)
Theorem invalid_writes_raise_before_request
    (backend : list HttpCall -> HttpCall -> Response) (fan_attr : DaikinThermostat -> result pyval)
    (jitter : nat -> Q) (poll : nat -> bool) (attempt_time : nat -> Q) (fuel : nat) :
  (forall (w : World) (temperature target_temp_low target_temp_high : option Q),
     match heap (c_store (w_client w)) !! w_thermostat w with
     | Some t => th_mode t = ThermostatMode.AUTO \/ th_mode t = ThermostatMode.OFF
     | None => False
     end ->
     float_truthy target_temp_low = false -> float_truthy target_temp_high = false ->
     exists msg,
       async_set_temperature backend fan_attr jitter poll attempt_time fuel
         temperature target_temp_low target_temp_high w = Some (Err (ValueError msg), w)) /\
  (forall (thermostat_id : string) (override_schedule : bool) (c : Client),
     exists msg,
       set_thermostat_home_set_points backend thermostat_id None None override_schedule c
         = (Err (ValueError msg), c)).
Proof.
  split.
  - intros w temperature low high Hm Hl Hh. unfold async_set_temperature.
    rewrite Hl, Hh. cbv beta iota zeta delta [orb].
    destruct temperature as [q|]; [destruct (negb (Qeq_bool q 0))|];
      try (eexists; reflexivity).
    unfold cbind at 1, this_thermostat, obj.
    destruct (heap (c_store (w_client w)) !! w_thermostat w) as [t|]; [|contradiction].
    destruct Hm as [-> | ->]; eexists; reflexivity.
  - intros thermostat_id override_schedule c. eexists. reflexivity.
Qed.

Lemma invalid_writes_raise_before_request_witness :
  let w_auto := world_at (data_mode 3) in
  (exists msg,
     async_set_temperature backend1 fan_attr_repo (fun _ => 1%Q) (fun _ => false) (fun _ => 1%Q) 20
       (Some 21%Q) None None w_auto = Some (Err (ValueError msg), w_auto)) /\
  (exists msg,
     set_thermostat_home_set_points backend1 "0a1b" None None false client0
       = (Err (ValueError msg), client0)).
Proof.
  intros w_auto.
  destruct (invalid_writes_raise_before_request backend1 fan_attr_repo (fun _ => 1%Q) (fun _ => false) (fun _ => 1%Q) 20)
    as [H1 H2].
  split.
  - apply H1; [vm_compute; left; reflexivity | reflexivity | reflexivity].
  - apply H2.
Defined.

End ClimateFacts.

Module TransportExtras.
Import Transport Decode Store Fixtures.

Lemma requests_sent_app l1 l2 : requests_sent (l1 ++ l2) = requests_sent l1 + requests_sent l2.
Proof. unfold requests_sent. rewrite List.filter_app, List.length_app. reflexivity. Qed.

Lemma bind_sends {A B} a b (m : T A) (k : A -> T B) :
  sends_at_most a m -> (forall x, sends_at_most b (k x)) -> sends_at_most (a + b) (mbind m k).
Proof.
  intros Hm Hk s r s' H. unfold mbind in H.
  destruct (m s) as [[x|e] s1] eqn:E.
  - destruct (Hm s _ s1 E) as [l1 [E1 L1]]. destruct (Hk x s1 r s' H) as [l2 [E2 L2]].
    exists (l2 ++ l1). rewrite E2, E1, app_assoc. split; [reflexivity|].
    rewrite requests_sent_app. lia.
  - injection H as <- <-. destruct (Hm s _ s1 E) as [l1 [E1 L1]]. exists l1. split; [exact E1|lia].
Qed.

Lemma sends_weaken {A} a b (m : T A) : sends_at_most a m -> a <= b -> sends_at_most b m.
Proof. intros Hm Hab s r s' H. destruct (Hm s r s' H) as [l [E L]]. exists l. split; [exact E|lia]. Qed.

Lemma mget_sends : sends_at_most 0 (@mget TState).
Proof. intros s r s' [= <- <-]. exists []. split; reflexivity. Qed.

Lemma mret_sends {A} (x : A) : sends_at_most 0 (mret x : T A).
Proof. intros s r s' [= <- <-]. exists []. split; reflexivity. Qed.

Lemma mraise_sends {A} e : sends_at_most 0 (mraise e : T A).
Proof. intros s r s' [= <- <-]. exists []. split; reflexivity. Qed.

Lemma mlift_sends {A} (x : result A) : sends_at_most 0 (mlift x : T A).
Proof. intros s r s' [= <- <-]. exists []. split; reflexivity. Qed.

Lemma set_auth_sends a : sends_at_most 0 (set_auth a).
Proof. intros s r s' [= <- <-]. exists []. split; reflexivity. Qed.

Lemma send_sends backend c : sends_at_most (if is_request c then 1 else 0) (send backend c).
Proof.
  intros s r s' [= <- <-]. exists [c]. split; [reflexivity|].
  unfold requests_sent; cbn. destruct (is_request c); cbn; lia.
Qed.

Ltac sends0 :=
  repeat match goal with
  | |- sends_at_most 0 (mbind _ _) => apply (bind_sends 0 0); [| intros ?]
  | |- sends_at_most 0 mget => apply mget_sends
  | |- sends_at_most 0 (mret _) => apply mret_sends
  | |- sends_at_most 0 (mraise _) => apply mraise_sends
  | |- sends_at_most 0 (mlift _) => apply mlift_sends
  | |- sends_at_most 0 (set_auth _) => apply set_auth_sends
  | |- sends_at_most 0 (send _ (CallLogin _ _)) => apply (send_sends _ (CallLogin _ _))
  | |- sends_at_most 0 (send _ (CallRefreshToken _ _)) => apply (send_sends _ (CallRefreshToken _ _))
  | |- sends_at_most _ (if ?b then _ else _) => destruct b
  end.

Lemma login_sends backend : sends_at_most 0 (login backend).
Proof. unfold login. sends0. Qed.

Lemma refresh_sends backend : sends_at_most 0 (refresh_access_token backend).
Proof. unfold refresh_access_token. sends0; apply login_sends. Qed.

Lemma req_attempt_sends backend url method body retry n (again : T pyval) :
  sends_at_most n again -> sends_at_most (S n) (req_attempt backend url method body retry again).
Proof.
  intros Ha. unfold req_attempt.
  apply (bind_sends 0 (S n)); [apply mget_sends| intros s0].
  apply (bind_sends 0 (S n)); [destruct (authenticated (auth s0)); [apply mret_sends|apply login_sends]| intros _].
  apply (bind_sends 0 (S n)); [apply mget_sends| intros s].
  apply (bind_sends 1 n); [apply (send_sends _ (CallRequest _ _ _ _))| intros response].
  destruct (Z.eqb (status response) 200); [apply (sends_weaken 0); [apply mret_sends|lia]|].
  destruct (Z.eqb (status response) 401 && retry).
  - apply (bind_sends 0 n); [apply refresh_sends| intros _; exact Ha].
  - apply (sends_weaken 0); [apply mraise_sends|lia].
Qed.

(** [__req] sends at most two API requests, whatever the backend answers:
    the first attempt and at most one retry; logins and token refreshes
    are not API requests. *)
Theorem req_at_most_two_requests (backend : list HttpCall -> HttpCall -> Response)
    (url method : string) (body : option pyval) (retry : bool) (s : TState) :
  requests_sent (sent (snd (req backend url method body retry s))) <= requests_sent (sent s) + 2.
Proof.
  destruct (req backend url method body retry s) as [r s'] eqn:E. cbn [snd].
  assert (H : sends_at_most 2 (req backend url method body retry)).
  { unfold req. apply req_attempt_sends, req_attempt_sends, mraise_sends. }
  destruct (H s r s' E) as [l [-> L]]. rewrite requests_sent_app. lia.
Qed.

(** The request [__req] sends from the state [s]. *)
Lemma req_error_once (backend : list HttpCall -> HttpCall -> Response)
    (url method : string) (body : option pyval) (retry : bool) (s : TState)
    (Hauth : authenticated (auth s) = true)
    (Hst : status (backend (sent s) (CallRequest method url body (access_token (auth s)))) <> 200%Z)
    (Hno : status (backend (sent s) (CallRequest method url body (access_token (auth s)))) <> 401%Z
           \/ retry = false) :
  let c := CallRequest method url body (access_token (auth s)) in
  req backend url method body retry s =
    (Err (ServiceError {| se_method := method; se_url := url; se_body := body;
                          se_status := status (backend (sent s) c);
                          se_text := text (backend (sent s) c) |}),
     {| creds_email := creds_email s; creds_password := creds_password s;
        auth := auth s; sent := c :: sent s |}).
Proof.
  cbv zeta. unfold req, req_attempt, mbind at 1, mget at 1. rewrite Hauth.
  unfold mbind, mret, mget, send. cbn [auth sent creds_email creds_password].
  apply Z.eqb_neq in Hst. rewrite Hst.
  destruct Hno as [H401 | ->].
  - apply Z.eqb_neq in H401. rewrite H401. reflexivity.
  - rewrite andb_false_r. reflexivity.
Qed.

(** An error status other than 401 (any error status when [retry] is
    false) from an authenticated client is raised at once as a
    [DaikinServiceException] carrying that status and body, after one API
    request and without a token refresh or login. *)
Theorem req_error_no_retry (backend : list HttpCall -> HttpCall -> Response)
    (url method : string) (body : option pyval) (retry : bool) (s : TState)
    (Hauth : authenticated (auth s) = true)
    (Hst : status (backend (sent s) (CallRequest method url body (access_token (auth s)))) <> 200%Z)
    (Hno : status (backend (sent s) (CallRequest method url body (access_token (auth s)))) <> 401%Z
           \/ retry = false) :
  let c := CallRequest method url body (access_token (auth s)) in
  req backend url method body retry s =
    (Err (ServiceError {| se_method := method; se_url := url; se_body := body;
                          se_status := status (backend (sent s) c);
                          se_text := text (backend (sent s) c) |}),
     {| creds_email := creds_email s; creds_password := creds_password s;
        auth := auth s; sent := c :: sent s |}).
Proof. exact (req_error_once backend url method body retry s Hauth Hst Hno). Qed.

Lemma req_error_no_retry_witness :
  let s := c_transport client0 in
  let c := CallRequest "GET" "u" None (access_token (auth s)) in
  req backend_404 "u" "GET" None true s =
    (Err (ServiceError {| se_method := "GET"; se_url := "u"; se_body := None;
                          se_status := status (backend_404 (sent s) c);
                          se_text := text (backend_404 (sent s) c) |}),
     {| creds_email := creds_email s; creds_password := creds_password s;
        auth := auth s; sent := c :: sent s |}).
Proof.
  apply (req_error_no_retry backend_404 "u" "GET" None true (c_transport client0));
    [reflexivity | vm_compute; discriminate | left; vm_compute; discriminate].
Defined.


Ltac split_matches :=
  repeat (first
    [ match goal with |- context [if ?b then _ else _] => destruct b eqn:? end
    | match goal with |- context [match getitem ?v ?k with _ => _ end] =>
        destruct (getitem v k) eqn:? end ]; cbn).

(** [DaikinOne.login] sends one login call with the credentials. When it
    returns true the client is authenticated with the two tokens of the
    response, neither of them [None]; when it returns false or raises,
    the auth state is unchanged. *)
Theorem login_outcome (backend : list HttpCall -> HttpCall -> Response) (s : TState) :
  let resp := backend (sent s) (CallLogin (creds_email s) (creds_password s)) in
  let '(r, s') := login backend s in
  sent s' = CallLogin (creds_email s) (creds_password s) :: sent s /\
  match r with
  | Ok true =>
      authenticated (auth s') = true /\
      getitem (json resp) "refreshToken" = Ok (refresh_token (auth s')) /\
      getitem (json resp) "accessToken" = Ok (access_token (auth s')) /\
      is_none (refresh_token (auth s')) = false /\ is_none (access_token (auth s')) = false
  | _ => auth s' = auth s
  end.
Proof.
  cbv zeta. unfold login, mbind, mget, send, mlift, set_auth, mmodify, mret. cbn.
  split_matches; repeat split; auto.
Qed.

(** On an authenticated client, [DaikinOne.__refresh_token] sends one
    refresh call with the stored refresh token and keeps that token; when
    it returns, its result is the client's new [authenticated] flag, and
    when it raises the auth state is unchanged. *)
Theorem refresh_token_outcome (backend : list HttpCall -> HttpCall -> Response) (s : TState)
    (Hauth : authenticated (auth s) = true) :
  let '(r, s') := refresh_access_token backend s in
  sent s' = CallRefreshToken (creds_email s) (refresh_token (auth s)) :: sent s /\
  refresh_token (auth s') = refresh_token (auth s) /\
  match r with
  | Ok b => authenticated (auth s') = b
  | Err _ => auth s' = auth s
  end.
Proof.
  unfold refresh_access_token, mbind at 1, mget at 1. rewrite Hauth.
  unfold mbind, mget, send, mlift, set_auth, mmodify, mret. cbn.
  split_matches; repeat split; auto.
Qed.

Lemma refresh_token_outcome_witness :
  let s := c_transport client0 in
  let '(r, s') := refresh_access_token backend1 s in
  sent s' = CallRefreshToken (creds_email s) (refresh_token (auth s)) :: sent s /\
  refresh_token (auth s') = refresh_token (auth s) /\
  match r with
  | Ok b => authenticated (auth s') = b
  | Err _ => auth s' = auth s
  end.
Proof. exact (refresh_token_outcome backend1 (c_transport client0) eq_refl). Defined.

(** A 200 answer to the request of an authenticated client. *)
Lemma req_ok_once (backend : list HttpCall -> HttpCall -> Response)
    (url method : string) (body : option pyval) (retry : bool) (s : TState)
    (Hauth : authenticated (auth s) = true)
    (Hst : status (backend (sent s) (CallRequest method url body (access_token (auth s)))) = 200%Z) :
  let c := CallRequest method url body (access_token (auth s)) in
  req backend url method body retry s =
    (Ok (json (backend (sent s) c)),
     {| creds_email := creds_email s; creds_password := creds_password s;
        auth := auth s; sent := c :: sent s |}).
Proof.
  cbv zeta. unfold req, req_attempt, mbind at 1, mget at 1. rewrite Hauth.
  unfold mbind, mret, mget, send. cbn [auth sent creds_email creds_password].
  rewrite Hst. reflexivity.
Qed.



(** [DaikinOne.set_thermostat_mode] on an authenticated client whose
    write is answered with 200 sends one PUT to deviceData/<id> with the
    body [{"mode": v}], where [DaikinThermostatMode(v)] is the requested
    mode; the cache is not touched. *)
Theorem set_mode_request (backend : list HttpCall -> HttpCall -> Response)
    (thermostat_id : string) (mode : ThermostatMode.t) (c : Client)
    (Hauth : authenticated (auth (c_transport c)) = true)
    (H200 : forall l b tok, status (backend l (CallRequest "PUT" (device_url thermostat_id) b tok)) = 200%Z) :
  exists v,
    Store.set_thermostat_mode backend thermostat_id mode c =
      (Ok tt, {| c_transport :=
                   {| creds_email := creds_email (c_transport c);
                      creds_password := creds_password (c_transport c);
                      auth := auth (c_transport c);
                      sent := CallRequest "PUT" (device_url thermostat_id)
                                (Some (PDict [("mode", PInt v)])) (access_token (auth (c_transport c)))
                              :: sent (c_transport c) |};
                 c_store := c_store c |}) /\
    ThermostatMode.of_value (PInt v) = Ok mode.
Proof.
  exists (mode_value mode). split.
  - unfold Store.set_thermostat_mode, mbind, on_transport.
    rewrite (req_ok_once backend _ "PUT" _ true (c_transport c) Hauth (H200 _ _ _)).
    reflexivity.
  - destruct mode; reflexivity.
Qed.

Lemma set_mode_request_witness :
  exists v,
    Store.set_thermostat_mode backend1 "0a1b" ThermostatMode.AUTO client0 =
      (Ok tt, {| c_transport :=
                   {| creds_email := creds_email (c_transport client0);
                      creds_password := creds_password (c_transport client0);
                      auth := auth (c_transport client0);
                      sent := CallRequest "PUT" (device_url "0a1b")
                                (Some (PDict [("mode", PInt v)])) (access_token (auth (c_transport client0)))
                              :: sent (c_transport client0) |};
                 c_store := c_store client0 |}) /\
    ThermostatMode.of_value (PInt v) = Ok ThermostatMode.AUTO.
Proof.
  apply (set_mode_request backend1 "0a1b" ThermostatMode.AUTO client0);
    [reflexivity | intros l b tok; reflexivity].
Defined.

(** [DaikinOne.set_thermostat_home_set_points] with at least one set
    point, on an authenticated client whose write is answered with 200,
    sends one PUT to deviceData/<id>: its body has [hspHome] exactly when a
    heat set point is given (its Celsius value), [cspHome] exactly when a
    cool set point is given, and [schedOverride = 1] exactly when
    [override_schedule] is true; the cache is not touched. *)
Theorem home_set_points_request (backend : list HttpCall -> HttpCall -> Response)
    (thermostat_id : string) (heat cool : option Temperature) (override_schedule : bool) (c : Client)
    (Hset : heat <> None \/ cool <> None)
    (Hauth : authenticated (auth (c_transport c)) = true)
    (H200 : forall l b tok, status (backend l (CallRequest "PUT" (device_url thermostat_id) b tok)) = 200%Z) :
  exists payload,
    set_thermostat_home_set_points backend thermostat_id heat cool override_schedule c =
      (Ok tt, {| c_transport :=
                   {| creds_email := creds_email (c_transport c);
                      creds_password := creds_password (c_transport c);
                      auth := auth (c_transport c);
                      sent := CallRequest "PUT" (device_url thermostat_id)
                                (Some (PDict payload)) (access_token (auth (c_transport c)))
                              :: sent (c_transport c) |};
                 c_store := c_store c |}) /\
    dict_get "hspHome" payload = option_map (fun h => PFloat (celsius h)) heat /\
    dict_get "cspHome" payload = option_map (fun t => PFloat (celsius t)) cool /\
    dict_get "schedOverride" payload = (if override_schedule then Some (PInt 1) else None).
Proof.
  destruct heat as [h|], cool as [k|]; [| | |destruct Hset as [[]|[]]; reflexivity];
    destruct override_schedule;
    eexists; (split; [unfold set_thermostat_home_set_points, mbind, on_transport; cbn -[Transport.req];
                      rewrite (req_ok_once backend _ "PUT" _ true (c_transport c) Hauth (H200 _ _ _));
                      reflexivity|]); cbn; auto.
Qed.

Lemma home_set_points_request_witness :
  exists payload,
    set_thermostat_home_set_points backend1 "0a1b" (Some (temp_init 21)) None true client0 =
      (Ok tt, {| c_transport :=
                   {| creds_email := creds_email (c_transport client0);
                      creds_password := creds_password (c_transport client0);
                      auth := auth (c_transport client0);
                      sent := CallRequest "PUT" (device_url "0a1b")
                                (Some (PDict payload)) (access_token (auth (c_transport client0)))
                              :: sent (c_transport client0) |};
                 c_store := c_store client0 |}) /\
    dict_get "hspHome" payload = option_map (fun h => PFloat (celsius h)) (Some (temp_init 21)) /\
    dict_get "cspHome" payload = option_map (fun t => PFloat (celsius t)) None /\
    dict_get "schedOverride" payload = (if true then Some (PInt 1) else None).
Proof.
  apply (home_set_points_request backend1 "0a1b" (Some (temp_init 21)) None true client0);
    [left; discriminate | reflexivity | intros l b tok; reflexivity].
Defined.

End TransportExtras.

Module StoreExtras.
Import Decode Store Fixtures StoreFacts.

Lemma live_cache_forall s :
  live_cache s = true <-> Forall (fun kl => is_Some (heap s !! snd kl)) (cache s).
Proof.
  unfold live_cache. rewrite forallb_forall, List.Forall_forall.
  split; intros H kl Hin; specialize (H kl Hin).
  - apply bool_decide_eq_true in H. now apply elem_of_dom.
  - apply bool_decide_eq_true. now apply elem_of_dom.
Qed.

Lemma forall2_strengthen {X Y} (P : X -> Prop) (R R' : X -> Y -> Prop) l l' :
  Forall P l -> Forall2 R l l' -> (forall x y, P x -> R x y -> R' x y) -> Forall2 R' l l'.
Proof.
  intros HP HR Himp. induction HR as [|x y l0 l0' Hxy _ IH]; constructor.
  - inversion HP; subst. now apply Himp.
  - inversion HP; subst. now apply IH.
Qed.

(** [deepcopy_dict] of a dict of live objects succeeds: the copy has the
    same keys in the same order, and each copied object holds what the
    original held. *)
Lemma deepcopy_dict_copies d : forall s,
  Forall (fun kl => is_Some (heap s !! snd kl)) d ->
  exists d' s', deepcopy_dict d s = (Ok d', s') /\ cache s' = cache s /\ heap s ⊆ heap s' /\
    Forall2 (fun kl kl' => fst kl' = fst kl /\ heap s' !! snd kl' = heap s !! snd kl) d d'.
Proof.
  induction d as [|[k l] r IH]; intros s Hlive.
  - exists [], s. split; [reflexivity|]. split; [reflexivity|]. split; [reflexivity|]. constructor.
  - apply Forall_cons in Hlive as [[v Hv] Hr]; cbn in Hv.
    cbn [deepcopy_dict]. unfold mbind, deepcopy, alloc. rewrite Hv.
    set (l' := fresh (dom (heap s))).
    set (s1 := {| cache := cache s; heap := <[l' := v]> (heap s) |}).
    assert (Hsub : heap s ⊆ heap s1) by (apply insert_subseteq; apply fresh_none).
    assert (Hr1 : Forall (fun kl => is_Some (heap s1 !! snd kl)) r).
    { eapply Forall_impl; [exact Hr|]. intros kl [w Hw]. exists w. exact (lookup_weaken _ _ _ _ Hw Hsub). }
    destruct (IH s1 Hr1) as (r' & s' & Er & Hc & Hsub' & Hrel).
    rewrite Er. unfold mret. exists ((k, l') :: r'), s'.
    split; [reflexivity|]. split; [exact Hc|]. split; [etransitivity; eassumption|].
    constructor.
    + split; [reflexivity|]. cbn. rewrite Hv.
      apply (lookup_weaken _ _ _ _ (lookup_insert_eq _ _ _) Hsub').
    + eapply forall2_strengthen; [exact Hr | exact Hrel|].
      intros [k0 l0] [k0' l0'] [w Hw] [Hk Hl]; cbn in *. split; [exact Hk|].
      rewrite Hl, Hw. exact (lookup_weaken _ _ _ _ Hw Hsub).
Qed.

Lemma forall2_keys {A B} (R : A -> B -> Prop) (d : dict A) (d' : dict B) :
  Forall2 (fun kl kl' => fst kl' = fst kl /\ R (snd kl) (snd kl')) d d' -> map fst d' = map fst d.
Proof. induction 1 as [|x y l l' [Hk _] _ IH]; cbn; congruence. Qed.

Lemma forall2_dict_get (h h' : gmap loc DaikinThermostat) (d d' : dict loc) :
  Forall2 (fun kl kl' => fst kl' = fst kl /\ h' !! snd kl' = h !! snd kl) d d' ->
  forall k, match dict_get k d' with Some l => h' !! l | None => None end =
            match dict_get k d with Some l => h !! l | None => None end.
Proof.
  induction 1 as [|[k0 l0] [k0' l0'] l l' [Hk Hl] _ IH]; intros k; cbn in *; [reflexivity|].
  subst k0'. destruct (String.eqb k0 k); [exact Hl | apply IH].
Qed.

Lemma dict_set_keys {V} (k : string) (v : V) (d : dict V) :
  map fst (dict_set k v d) =
  if existsb (String.eqb k) (map fst d) then map fst d else map fst d ++ [k].
Proof.
  induction d as [|[k' v'] r IH]; cbn; [reflexivity|].
  destruct (String.eqb k k') eqn:E; cbn.
  - apply String.eqb_eq in E. subst k'. reflexivity.
  - rewrite IH. destruct (existsb (String.eqb k) (map fst r)); reflexivity.
Qed.

Lemma dict_set_nodup {V} (k : string) (v : V) (d : dict V) :
  NoDup (map fst d) -> NoDup (map fst (dict_set k v d)).
Proof.
  intros H. rewrite dict_set_keys. destruct (existsb (String.eqb k) (map fst d)) eqn:E; [exact H|].
  apply NoDup_app. split; [exact H|]. split; [|apply NoDup_singleton].
  intros x Hx Hk. apply list_elem_of_singleton in Hk. subst x.
  apply list_elem_of_In in Hx.
  assert (existsb (String.eqb k) (map fst d) = true) by (apply existsb_exists; exists k; split; [exact Hx | apply String.eqb_refl]).
  congruence.
Qed.

(** A successful [build_cache] from a dict of live objects with distinct
    keys builds a dict of live objects with distinct keys. *)
Lemma build_cache_live ps : forall acc s d s',
  build_cache ps acc s = (Ok d, s') ->
  Forall (fun kl => is_Some (heap s !! snd kl)) acc -> NoDup (map fst acc) ->
  Forall (fun kl => is_Some (heap s' !! snd kl)) d /\ NoDup (map fst d).
Proof.
  induction ps as [|p ps IH]; intros acc s d s' H Hlive Hnd; cbn in H.
  - injection H as <- <-. split; assumption.
  - unfold mbind, mlift in H. destruct (map_thermostat p) as [t|e]; [|discriminate].
    unfold alloc in H.
    set (l := fresh (dom (heap s))) in H.
    assert (Hsub : heap s ⊆ <[l := t]> (heap s)) by (apply insert_subseteq; apply fresh_none).
    apply (IH _ _ _ _ H); cbn.
    + rewrite List.Forall_forall. intros [k0 l0] Hin; cbn.
      apply DecodeFacts.in_dict_set in Hin as [Heq|Hin].
      * injection Heq as -> ->. exists t. apply lookup_insert_eq.
      * rewrite List.Forall_forall in Hlive. destruct (Hlive _ Hin) as [w Hw]; cbn in Hw.
        exists w. exact (lookup_weaken _ _ _ _ Hw Hsub).
    + now apply dict_set_nodup.
Qed.

(** [DaikinOne.get_thermostats] on a cache of live objects returns a new
    dict with the cache's ids in the cache's order, and each of its
    objects holds what the cache holds for that id; the cache is left as
    it was. *)
Theorem get_thermostats_copies (s : Store) (Hlive : live_cache s = true) :
  exists d s', get_thermostats s = (Ok d, s') /\
    map fst d = map fst (cache s) /\ cache s' = cache s /\
    forall k, match dict_get k d with Some l => heap s' !! l | None => None end
              = cached_value s k.
Proof.
  apply live_cache_forall in Hlive.
  destruct (deepcopy_dict_copies (cache s) s Hlive) as (d & s' & E & Hc & _ & Hrel).
  exists d, s'. split; [exact E|]. split; [exact (forall2_keys (fun l l' => heap s' !! l' = heap s !! l) _ _ Hrel)|].
  split; [exact Hc|]. intros k. unfold cached_value. exact (forall2_dict_get _ _ _ _ Hrel k).
Qed.

Lemma get_thermostats_copies_witness :
  live_cache store1 = true /\
  exists d s', get_thermostats store1 = (Ok d, s') /\
    map fst d = map fst (cache store1) /\ cache s' = cache store1 /\
    forall k, match dict_get k d with Some l => heap s' !! l | None => None end
              = cached_value store1 k.
Proof.
  assert (H : live_cache store1 = true) by (vm_compute; reflexivity).
  split; [exact H|]. exact (get_thermostats_copies store1 H).
Defined.

End StoreExtras.

Module ClimateExtras.
Import Py Transport Decode Store Climate Fixtures DecodeFacts.
Local Open Scope climate_scope.

(** A decoded thermostat has every capability and the id of its device. *)
Lemma decoded_caps_id (p : DeviceDataResponse) (t : DaikinThermostat) :
  map_thermostat p = Ok t ->
  th_capabilities t = [Capability.HEAT; Capability.COOL; Capability.EMERGENCY_HEAT] /\
  th_id t = dd_id p.
Proof.
  unfold map_thermostat; intros H; cbv zeta in H.
  unbind_in H. injection H as <-; cbn. split; [|reflexivity].
  repeat match goal with |- context [truthy ?v] => destruct (truthy v) end; reflexivity.
Qed.

(** [DaikinOneThermostat.__init__] on a decoded thermostat: the unique id
    is [{id}-climate], the supported features are TURN_ON, TURN_OFF,
    TARGET_TEMPERATURE, TARGET_TEMPERATURE_RANGE, FAN_MODE and PRESET_MODE
    (411), the HVAC modes are heat_cool, heat, cool and off in this order,
    and the preset modes are none and emergency_heat. *)
Theorem entity_init_decoded (p : DeviceDataResponse) (t : DaikinThermostat)
    (H : map_thermostat p = Ok t) :
  entity_init t =
    {| ei_unique_id := String.append (dd_id p) "-climate";
       ei_supported_features := 411;
       ei_hvac_modes := [HVACMode.HEAT_COOL; HVACMode.HEAT; HVACMode.COOL; HVACMode.OFF];
       ei_preset_modes := ["none"; "emergency_heat"] |}.
Proof.
  destruct (decoded_caps_id p t H) as [Hc Hid].
  unfold entity_init, get_hvac_modes, cap_in. rewrite Hc, Hid. reflexivity.
Qed.

Section Entity.
Variable backend : list HttpCall -> HttpCall -> Response.
Variable fan_attr : DaikinThermostat -> result pyval.
Variable jitter : nat -> Q.
Variable poll : nat -> bool.
Variable attempt_time : nat -> Q.
Variable fuel : nat.

(** [async_set_hvac_mode] accepts every mode [get_hvac_modes] can
    advertise, setting heat_cool as the Daikin mode AUTO and heat, cool
    and off as HEAT, COOL and OFF; any other HVAC mode raises [ValueError]
    and changes nothing. *)
Theorem hvac_mode_dispatch (t : DaikinThermostat) :
  (forall h, In h (get_hvac_modes t) ->
     async_set_hvac_mode backend fan_attr jitter poll attempt_time fuel h =
     set_thermostat_mode backend fan_attr jitter poll attempt_time fuel
       (match h with
        | HVACMode.HEAT_COOL => ThermostatMode.AUTO
        | HVACMode.HEAT => ThermostatMode.HEAT
        | HVACMode.COOL => ThermostatMode.COOL
        | _ => ThermostatMode.OFF
        end)) /\
  (forall h w, ~ In h [HVACMode.HEAT_COOL; HVACMode.HEAT; HVACMode.COOL; HVACMode.OFF] ->
     async_set_hvac_mode backend fan_attr jitter poll attempt_time fuel h w =
     Some (Err (ValueError (String.append "Attempted to set unsupported HVAC mode: "
                              (HVACMode.value h))), w)).
Proof.
  split.
  - intros h Hin. unfold get_hvac_modes in Hin.
    destruct h; try reflexivity; exfalso;
      destruct (cap_in Capability.HEAT t), (cap_in Capability.COOL t); cbn in Hin;
      intuition discriminate.
  - intros h w Hin. destruct h; try reflexivity; exfalso; apply Hin; cbn; auto.
Qed.

End Entity.

Lemma cbind_clock {A B} (m : CM A) (k : A -> CM B) :
  keeps_clock m -> (forall a, keeps_clock (k a)) -> keeps_clock (cbind m k).
Proof.
  intros Hm Hk w r w'. unfold cbind.
  destruct (m w) as [[[a|e] w1]|] eqn:E; intros H; try discriminate.
  - rewrite (Hk a w1 r w' H). exact (Hm w _ w1 E).
  - injection H as <- <-. exact (Hm w _ w1 E).
Qed.

Lemma cret_clock {A} (a : A) : keeps_clock (cret a).
Proof. intros w r w' [= _ <-]. reflexivity. Qed.

Lemma craise_clock {A} e : keeps_clock (A := A) (craise e).
Proof. intros w r w' [= _ <-]. reflexivity. Qed.

Lemma cget_clock : keeps_clock cget.
Proof. intros w r w' [= _ <-]. reflexivity. Qed.

Lemma clift_clock {A} (x : result A) : keeps_clock (clift x).
Proof. intros w r w' [= _ <-]. reflexivity. Qed.

Lemma cmodify_clock f : (forall w, w_clock (f w) = w_clock w) -> keeps_clock (cmodify f).
Proof. intros Hf w r w' [= _ <-]. apply Hf. Qed.

Lemma on_daikin_clock {A} (m : M Client A) : keeps_clock (on_daikin m).
Proof. intros w r w'. unfold on_daikin. destruct (m (w_client w)). intros [= _ <-]. reflexivity. Qed.

Lemma obj_clock l : keeps_clock (obj l).
Proof. intros w r w'. unfold obj. destruct (_ !! l); intros [= _ <-]; reflexivity. Qed.

Lemma this_thermostat_clock : keeps_clock this_thermostat.
Proof. intros w r w'. apply obj_clock. Qed.

Ltac clk :=
  repeat match goal with
  | |- keeps_clock (cbind _ _) => apply cbind_clock; [| intros ?]
  | |- keeps_clock (cret _) => apply cret_clock
  | |- keeps_clock (craise _) => apply craise_clock
  | |- keeps_clock cget => apply cget_clock
  | |- keeps_clock (clift _) => apply clift_clock
  | |- keeps_clock (on_daikin _) => apply on_daikin_clock
  | |- keeps_clock (obj _) => apply obj_clock
  | |- keeps_clock this_thermostat => apply this_thermostat_clock
  | |- keeps_clock (cmodify _) => apply cmodify_clock; intros; reflexivity
  | |- keeps_clock (match ?x with _ => _ end) => destruct x
  | |- keeps_clock (if ?b then _ else _) => destruct b
  | |- keeps_clock (let _ := _ in _) => cbv zeta
  end.

Section Clock.
Variable backend : list HttpCall -> HttpCall -> Response.
Variable fan_attr : DaikinThermostat -> result pyval.
Variable jitter : nat -> Q.
Variable poll : nat -> bool.
Variable attempt_time : nat -> Q.
Variable fuel : nat.

Lemma data_update_clock b : keeps_clock (data_update backend b).
Proof. unfold data_update. clk. Qed.

Lemma update_entity_attributes_clock : keeps_clock (update_entity_attributes fan_attr).
Proof. unfold update_entity_attributes, set_attr. clk. Qed.

Lemma write_ha_state_clock : keeps_clock write_ha_state.
Proof. unfold write_ha_state. clk. Qed.

Lemma async_update_clock b : keeps_clock (async_update backend fan_attr b).
Proof.
  unfold async_update. clk;
    first [apply data_update_clock | apply update_entity_attributes_clock].
Qed.

Lemma ha_poll_clock : keeps_clock (ha_poll backend fan_attr).
Proof.
  intros w r w'. unfold ha_poll.
  destruct (async_update backend fan_attr false w) as [[[a|e] w1]|] eqn:E; intros H; try discriminate.
  - rewrite (write_ha_state_clock w1 r w' H). exact (async_update_clock false w _ w1 E).
  - injection H as _ <-. exact (async_update_clock false w _ w1 E).
Qed.

Lemma wait_target_clock check : keeps_clock (wait_target backend check).
Proof. unfold wait_target. clk. apply data_update_clock. Qed.

(** [asyncio.sleep(seconds)] advances the clock by [seconds]. *)
Lemma sleep_clock tries seconds w r w' :
  sleep backend fan_attr poll tries seconds w = Some (r, w') ->
  w_clock w' = (w_clock w + seconds)%Q.
Proof.
  unfold sleep, cbind, cmodify. intros H.
  destruct (poll tries).
  - rewrite (ha_poll_clock _ _ _ H). reflexivity.
  - injection H as _ <-. reflexivity.
Qed.

(** An attempt awaited for [seconds] ends [seconds] after it started. *)
Lemma timed_clock {A} seconds (m : CM A) w r w' :
  keeps_clock m -> timed seconds m w = Some (r, w') -> w_clock w' = (w_clock w + seconds)%Q.
Proof.
  intros Hm. unfold timed. destruct (m w) as [[r1 w1]|] eqn:E; [|discriminate].
  intros [= _ <-]. cbn. rewrite (Hm w _ w1 E). reflexivity.
Qed.

(** The confirmation loop reads [elapsed] before each attempt and never
    sleeps past [start + MAX_TIME]; when every attempt takes at most [d]
    seconds, each attempt starts by [start + MAX_TIME + d]. *)
Lemma retry_clock (d : Q) (Hd0 : (0 <= d)%Q) (Hd : forall k, (attempt_time k <= d)%Q) n :
  forall check start tries w r w',
  (w_clock w <= start + MAX_TIME + d)%Q ->
  retry backend fan_attr jitter poll attempt_time n check start tries w = Some (r, w') ->
  (w_clock w' <= start + MAX_TIME + 2 * d)%Q.
Proof.
  induction n as [|n IH]; intros check start tries w r w' Hw H; [discriminate H|].
  pose proof (Hd tries) as Ht.
  cbn [retry] in H. unfold cbind at 1, cget at 1 in H. cbv beta iota zeta in H.
  unfold cbind at 1 in H.
  destruct (timed (attempt_time tries) (wait_target backend check) w) as [[[ret|e] w1]|] eqn:Ew;
    [| |discriminate H];
    pose proof (timed_clock _ _ w _ w1 (wait_target_clock check) Ew) as Hc1.
  2: { injection H as _ <-. rewrite Hc1. lra. }
  destruct ret; cbn [negb] in H.
  - injection H as _ <-. rewrite Hc1. lra.
  - destruct (Qle_bool MAX_TIME (w_clock w - start)) eqn:Eq.
    + injection H as _ <-. rewrite Hc1. lra.
    + unfold cbind at 1 in H.
      match type of H with
      | context [sleep ?a ?b ?c ?e ?sec w1] =>
          destruct (sleep a b c e sec w1) as [[[u|x] w3]|] eqn:Es; [| |discriminate H];
          pose proof (sleep_clock _ _ _ _ _ Es) as Hc3
      end;
      (assert (Hw3 : (w_clock w3 <= start + MAX_TIME + d)%Q);
       [ rewrite Hc3, Hc1;
         destruct (Qlt_bool (MAX_TIME - (w_clock w - start)) (jitter tries)) eqn:Ej;
         [ lra
         | unfold Qlt_bool in Ej; apply negb_false_iff, Qle_bool_iff in Ej; lra ]
       | ]).
      * exact (IH _ _ _ _ _ _ Hw3 H).
      * injection H as _ <-. lra.
Qed.

(** [_wait_for_updated_value] returns, confirmed or not, at most
    [MAX_TIME + 2 d] seconds after it started when each confirmation
    attempt takes between 0 and [d] seconds, whatever the jitter draws and
    the polls that run while it sleeps: [elapsed] is read before each
    attempt, so the loop can start one more attempt after [MAX_TIME] has
    nearly elapsed and give up only after it. *)
Theorem wait_for_updated_value_bounded (check : DaikinThermostat -> bool) (d : Q)
    (Hd : forall k, (0 <= attempt_time k <= d)%Q)
    (w : World) (r : result bool) (w' : World)
    (Hrun : wait_for_updated_value backend fan_attr jitter poll attempt_time fuel check w = Some (r, w')) :
  (w_clock w' <= w_clock w + MAX_TIME + 2 * d)%Q.
Proof.
  unfold wait_for_updated_value, cbind at 1, cget in Hrun. cbv beta iota in Hrun.
  assert (Hd' : forall k, (attempt_time k <= d)%Q) by (intros k; apply Hd).
  pose proof (Hd 0%nat) as H0.
  refine (retry_clock d _ Hd' fuel check (w_clock w) 1 w r w' _ Hrun); unfold MAX_TIME; lra.
Qed.

End Clock.

Lemma entity_init_decoded_witness :
  match map_thermostat sample1 with
  | Ok t => entity_init t =
      {| ei_unique_id := String.append (dd_id sample1) "-climate";
         ei_supported_features := 411;
         ei_hvac_modes := [HVACMode.HEAT_COOL; HVACMode.HEAT; HVACMode.COOL; HVACMode.OFF];
         ei_preset_modes := ["none"; "emergency_heat"] |}
  | Err _ => False
  end.
Proof.
  destruct (map_thermostat sample1) as [t|e] eqn:E; [|vm_compute in E; discriminate E].
  exact (entity_init_decoded sample1 t E).
Defined.

Lemma hvac_mode_dispatch_witness :
  match map_thermostat sample1 with
  | Ok t =>
      In HVACMode.HEAT (get_hvac_modes t) /\
      async_set_hvac_mode backend1 fan_attr_repo (fun _ => 0%Q) (fun _ => false) (fun _ => 0%Q) 1 HVACMode.HEAT =
        set_thermostat_mode backend1 fan_attr_repo (fun _ => 0%Q) (fun _ => false) (fun _ => 0%Q) 1
          ThermostatMode.HEAT /\
      ~ In HVACMode.DRY [HVACMode.HEAT_COOL; HVACMode.HEAT; HVACMode.COOL; HVACMode.OFF] /\
      async_set_hvac_mode backend1 fan_attr_repo (fun _ => 0%Q) (fun _ => false) (fun _ => 0%Q) 1 HVACMode.DRY
        (world_at (dd_data sample1)) =
        Some (Err (ValueError "Attempted to set unsupported HVAC mode: dry"),
              world_at (dd_data sample1))
  | Err _ => False
  end.
Proof.
  destruct (map_thermostat sample1) as [t|e] eqn:E; [|vm_compute in E; discriminate E].
  assert (Hin : In HVACMode.HEAT (get_hvac_modes t)).
  { destruct (decoded_caps_id sample1 t E) as [Hc _].
    unfold get_hvac_modes, cap_in. rewrite Hc. cbn. auto. }
  assert (Hd : ~ In HVACMode.DRY [HVACMode.HEAT_COOL; HVACMode.HEAT; HVACMode.COOL; HVACMode.OFF])
    by (cbn; intuition discriminate).
  destruct (hvac_mode_dispatch backend1 fan_attr_repo (fun _ => 0%Q) (fun _ => false) (fun _ => 0%Q) 1 t)
    as [H1 H2].
  split; [exact Hin|]. split; [exact (H1 _ Hin)|]. split; [exact Hd|].
  exact (H2 _ _ Hd).
Defined.

(** A confirmation that never succeeds, with attempts of 1.5 seconds and
    a jitter of 1 second: the attempts start at 0, 2.5, 5, 7.5 and 10
    seconds, and the loop gives up after the last one, at 11.5 seconds,
    past [MAX_TIME]. *)
Lemma wait_for_updated_value_bounded_witness :
  let w := world_at (dd_data sample1) in
  let o := wait_for_updated_value backend1 fan_attr_repo (fun _ => 1%Q) (fun _ => false)
             (fun _ => 3#2) 20 (fun _ => false) w in
  let r := match o with Some (r, _) => r | None => Ok true end in
  let w' := match o with Some (_, w') => w' | None => w end in
  o = Some (Ok false, w') /\ w_clock w' == 23#2 /\ (w_clock w' <= w_clock w + MAX_TIME + 2 * (3#2))%Q.
Proof.
  intros w o r w'.
  assert (Ho : o = Some (r, w')) by (vm_compute; reflexivity).
  split; [vm_compute; reflexivity|]. split; [vm_compute; reflexivity|].
  refine (wait_for_updated_value_bounded backend1 fan_attr_repo (fun _ => 1%Q) (fun _ => false)
           (fun _ => 3#2) 20 (fun _ => false) (3#2) _ w r w' Ho).
  intros k. split; vm_compute; discriminate.
Defined.

End ClimateExtras.

Module SetupExtras.
Import Decode Store Climate Fixtures StoreExtras ClimateExtras.

Lemma string_length_append (a b : string) :
  String.length (String.append a b) = String.length a + String.length b.
Proof. induction a as [|c a IH]; simpl; [reflexivity | now rewrite IH]. Qed.

(** Appending the same suffix is injective. *)
Lemma append_suffix_inj (a b s : string) : String.append a s = String.append b s -> a = b.
Proof.
  revert b. induction a as [|c a IH]; intros [|c' b] H.
  - reflexivity.
  - apply (f_equal String.length) in H. rewrite !string_length_append in H. cbn in H. lia.
  - apply (f_equal String.length) in H. rewrite !string_length_append in H. cbn in H. lia.
  - cbn in H. injection H as -> H. f_equal. exact (IH b H).
Qed.

Lemma nodup_map_suffix (keys : list string) (sfx : string) :
  NoDup keys -> NoDup (map (fun k => String.append k sfx) keys).
Proof.
  induction 1 as [|k ks Hk _ IH]; cbn; constructor; [|exact IH].
  intros Hin. apply list_elem_of_In, in_map_iff in Hin as (k' & Heq & Hin').
  apply append_suffix_inj in Heq. subst k'. apply Hk. now apply list_elem_of_In.
Qed.

Lemma forall2_transfer {X Y} (P : X -> Prop) (R : X -> Y -> Prop) (Q : Y -> Prop) l l' :
  Forall P l -> Forall2 R l l' -> (forall x y, P x -> R x y -> Q y) -> Forall Q l'.
Proof.
  intros HP HR Himp. induction HR as [|x y l0 l0' Hxy _ IH]; constructor.
  - inversion HP; subst. now apply (Himp x).
  - inversion HP; subst. now apply IH.
Qed.

Lemma build_cache_keyed ps : forall acc s d s',
  build_cache ps acc s = (Ok d, s') -> keyed_objects (heap s) acc -> keyed_objects (heap s') d.
Proof.
  induction ps as [|p ps IH]; intros acc s d s' H Hk; cbn in H.
  - injection H as <- <-. exact Hk.
  - unfold mbind, mlift in H. destruct (map_thermostat p) as [t|e] eqn:Et; [|discriminate].
    unfold alloc in H.
    set (l := fresh (dom (heap s))) in H.
    assert (Hsub : heap s ⊆ <[l := t]> (heap s)) by (apply insert_subseteq; apply StoreFacts.fresh_none).
    apply (IH _ _ _ _ H). unfold keyed_objects. rewrite List.Forall_forall.
    intros [k0 l0] Hin; cbn.
    apply DecodeFacts.in_dict_set in Hin as [Heq|Hin].
    + injection Heq as -> ->. exists t. split; [apply lookup_insert_eq|].
      exact (proj2 (decoded_caps_id p t Et)).
    + unfold keyed_objects in Hk. rewrite List.Forall_forall in Hk.
      destruct (Hk _ Hin) as (t0 & Ht0 & Hid); cbn in Ht0, Hid.
      exists t0. split; [exact (lookup_weaken _ _ _ _ Ht0 Hsub) | exact Hid].
Qed.

Lemma entity_init_unique_id t : ei_unique_id (entity_init t) = String.append (th_id t) "-climate".
Proof. unfold entity_init. destruct (cap_in Capability.EMERGENCY_HEAT t); reflexivity. Qed.

Lemma entities_of_keyed d s :
  keyed_objects (heap s) d ->
  exists es, entities_of d s = (Ok es, s) /\
    map ei_unique_id es = map (fun k => String.append k "-climate") (map fst d).
Proof.
  induction d as [|[k l] r IH]; intros Hk.
  - exists []. split; reflexivity.
  - apply Forall_cons in Hk as [(t & Ht & Hid) Hr]; cbn in Ht, Hid.
    destruct (IH Hr) as (es & E & Hes).
    exists (entity_init t :: es). cbn. rewrite Ht. unfold mbind. rewrite E.
    split; [reflexivity|]. cbn [map fst]. rewrite entity_init_unique_id, Hid, Hes. reflexivity.
Qed.

(** After a successful [DaikinOne.update], the climate platform's
    [async_setup_entry] creates one entity per cached thermostat, in the
    cache's order, with unique id [{id}-climate] for the thermostat's
    id; no two entities share a unique id. *)
Theorem setup_entities_unique
    (backend : list Transport.HttpCall -> Transport.HttpCall -> Transport.Response)
    (c c' : Client) (H : refresh_thermostats backend c = (Ok tt, c')) :
  exists es s', climate_setup_entry (c_store c') = (Ok es, s') /\
    map ei_unique_id es = map (fun k => String.append k "-climate") (map fst (cache (c_store c'))) /\
    NoDup (map ei_unique_id es).
Proof.
  assert (Hinv : keyed_objects (heap (c_store c')) (cache (c_store c')) /\
                 Forall (fun kl => is_Some (heap (c_store c') !! snd kl)) (cache (c_store c')) /\
                 NoDup (map fst (cache (c_store c')))).
  { unfold refresh_thermostats, mbind, on_transport, mlift, on_store in H.
    destruct (Transport.req backend DAIKIN_API_URL_DEVICE_DATA "GET" None true (c_transport c))
      as [[devices|e] t1]; [|discriminate].
    cbn in H. destruct (py_iter devices) as [items|e]; [|discriminate].
    destruct (validate_all items) as [ps|e]; [|discriminate].
    destruct (build_cache ps [] (c_store c)) as [[d|e] s1] eqn:Eb; [|discriminate].
    unfold set_cache in H. injection H as <-. cbn.
    split; [exact (build_cache_keyed ps [] (c_store c) d s1 Eb (List.Forall_nil _))|].
    apply (build_cache_live ps [] (c_store c) d s1 Eb); constructor. }
  destruct Hinv as (Hkeyed & Hlive & Hnd).
  destruct (deepcopy_dict_copies _ _ Hlive) as (d & s1 & Ed & Hc & _ & Hrel).
  assert (Hk1 : keyed_objects (heap s1) d).
  { eapply forall2_transfer; [exact Hkeyed | exact Hrel|].
    intros [k l] [k' l'] (t & Ht & Hid) [Hk Hl]; cbn in *. exists t.
    split; [rewrite Hl; exact Ht | congruence]. }
  destruct (entities_of_keyed d s1 Hk1) as (es & Ees & Hes).
  exists es, s1. split.
  - unfold climate_setup_entry, mbind, get_thermostats. rewrite Ed. exact Ees.
  - rewrite (forall2_keys (fun l l' => heap s1 !! l' = heap (c_store c') !! l) _ _ Hrel) in Hes.
    split; [exact Hes|]. rewrite Hes. apply nodup_map_suffix. exact Hnd.
Qed.

Lemma setup_entities_unique_witness :
  let c' := snd (refresh_thermostats backend1 client0) in
  fst (refresh_thermostats backend1 client0) = Ok tt /\
  exists es s', climate_setup_entry (c_store c') = (Ok es, s') /\
    map ei_unique_id es = map (fun k => String.append k "-climate") (map fst (cache (c_store c'))) /\
    NoDup (map ei_unique_id es).
Proof.
  intros c'.
  assert (H : refresh_thermostats backend1 client0 = (Ok tt, c')) by (vm_compute; reflexivity).
  split; [rewrite H; reflexivity|].
  exact (setup_entities_unique backend1 client0 c' H).
Defined.

End SetupExtras.
